(** * Expense tracker statistics endpoints (backend/stats_routes.py)

    A shallow embedding of the four aggregation endpoints of
    [stats_routes.py] and of the parts of SQLite and Python they rely on:
    the expense table as a list of rows, the SQL query pipeline
    (WHERE, GROUP BY, aggregate functions, ORDER BY ... DESC), SQLite's
    [strftime] and Python's [round] and [str].

    The endpoints are given twice. The first part computes on the decimal
    amounts exactly, and carries what the claims say of filters, groups,
    keys, dates, counts and order. The second part has the arithmetic as
    a parameter and its instance of IEEE 754 doubles, the numbers that
    SQLite adds up and divides and that Python rounds; it carries what the
    claims say of totals and averages. *)

From Stdlib Require Import ZArith QArith Qround List String Ascii Bool Lia Lqa.
From Stdlib Require Import Sorting.Sorted Permutation.
From Stdlib Require Import DecimalString.
From Stdlib Require Import SpecFloat.
Import ListNotations.

Local Open Scope string_scope.
Local Open Scope Z_scope.

(** ** Python values *)

Module Py.

(** [datetime.date]: a calendar date without time of day. *)
Record date := mkdate { year : Z; month : Z; day : Z }.

Definition is_leap (y : Z) : bool :=
  ((y mod 4 =? 0) && negb (y mod 100 =? 0)) || (y mod 400 =? 0).

Definition days_in_month (y m : Z) : Z :=
  if m =? 2 then (if is_leap y then 29 else 28)
  else if (m =? 4) || (m =? 6) || (m =? 9) || (m =? 11) then 30
  else 31.

(** The invariant that the constructor of [datetime.date] enforces. *)
Definition valid_date (d : date) : Prop :=
  1 <= year d <= 9999 /\ 1 <= month d <= 12 /\
  1 <= day d <= days_in_month (year d) (month d).

Definition date_compare (a b : date) : comparison :=
  match year a ?= year b with
  | Eq => match month a ?= month b with
          | Eq => day a ?= day b
          | c => c
          end
  | c => c
  end.

Definition date_eqb (a b : date) : bool :=
  match date_compare a b with Eq => true | _ => false end.
Definition date_leb (a b : date) : bool :=
  match date_compare a b with Gt => false | _ => true end.
Definition date_ltb (a b : date) : bool :=
  match date_compare a b with Lt => true | _ => false end.

Definition date_le (a b : date) : Prop := date_leb a b = true.
Definition date_lt (a b : date) : Prop := date_ltb a b = true.

(** printf's [%0<w>d] for a non-negative number. *)
Fixpoint zeros (n : nat) : string :=
  match n with O => "" | S n' => String "0" (zeros n') end.

Definition decimal (n : Z) : string :=
  NilZero.string_of_uint (N.to_uint (Z.to_N n)).

Definition zero_pad (w : nat) (n : Z) : string :=
  let s := decimal n in zeros (w - String.length s) ++ s.

(** [date.isoformat()], which is what [str] gives on a date. *)
Definition isoformat (d : date) : string :=
  zero_pad 4 (year d) ++ "-" ++ zero_pad 2 (month d) ++ "-" ++ zero_pad 2 (day d).

(** [str(x)] where [x] is a date coming back from the database, NULL
    being [None]. *)
Definition str (x : option date) : string :=
  match x with Some d => isoformat d | None => "None" end.

(** Rounding of an exact value to the nearest integer, ties to the even
    neighbour, as [round] does. *)
Definition round_half_even (q : Q) : Z :=
  let f := Qfloor q in
  match Qcompare (q - inject_Z f) (1 # 2) with
  | Lt => f
  | Gt => f + 1
  | Eq => if Z.even f then f else f + 1
  end.

(** [round(x, 2)] on a number. *)
Definition round2 (q : Q) : Q :=
  Qmake (round_half_even (q * inject_Z 100)) 100.

End Py.

(** ** SQLite date functions *)

Module Sqlite.
Import Py.

(** Julian day number of a calendar date at noon (date.c, computeJD,
    counted in days). *)
Definition julian_day (Y M D : Z) : Z :=
  let Y' := if M <=? 2 then Y - 1 else Y in
  let M' := if M <=? 2 then M + 12 else M in
  let A := Y' / 100 in
  let B := 2 - A + A / 4 in
  let X1 := 36525 * (Y' + 4716) / 100 in
  let X2 := 306001 * (M' + 1) / 10000 in
  X1 + X2 + D + B - 1524.

Definition jd (d : date) : Z := julian_day (year d) (month d) (day d).

(** Day of the week, 0 = Monday ... 6 = Sunday. *)
Definition weekday (d : date) : Z := jd d mod 7.

(** Days since the first day of the year of [d]. *)
Definition day_of_year0 (d : date) : Z := jd d - julian_day (year d) 1 1.

(** [%W]: week of year 00-53, week 01 starts on the first Monday. *)
Definition week_of_year (d : date) : Z :=
  (day_of_year0 d + 7 - weekday d) / 7.

(** [strftime('%Y-W%W', d)] *)
Definition strftime_Y_W (d : date) : string :=
  zero_pad 4 (year d) ++ "-W" ++ zero_pad 2 (week_of_year d).

(** [strftime('%Y-%m', d)] *)
Definition strftime_Y_m (d : date) : string :=
  zero_pad 4 (year d) ++ "-" ++ zero_pad 2 (month d).

End Sqlite.

(** ** Errors: the [try ... except Exception as e: raise HTTPException] frame *)

Inductive Result (A : Type) : Type :=
| Ok (a : A)
| HTTPException (status_code : Z) (detail : string).
Arguments Ok {A} a.
Arguments HTTPException {A} status_code detail.

Definition bind {A B : Type} (m : Result A) (k : A -> Result B) : Result B :=
  match m with
  | Ok a => k a
  | HTTPException c d => HTTPException c d
  end.

Notation "x <- m ;; k" := (bind m (fun x => k))
  (at level 61, m at next level, right associativity).

(** The [for ... in results: stats.append(...)] loops. *)
Fixpoint for_each {A B : Type} (f : A -> Result B) (l : list A) : Result (list B) :=
  match l with
  | [] => Ok []
  | a :: t => b <- f a ;; bs <- for_each f t ;; Ok (b :: bs)
  end.

(** [round(x, 2)] on a value read from a result row: NULL comes back as
    [None], on which [round] raises a TypeError that the endpoint turns
    into a 500 response. *)
Definition round (x : option Q) : Result Q :=
  match x with
  | Some q => Ok (Py.round2 q)
  | None => HTTPException 500 "type NoneType doesn't define __round__ method"
  end.

(** ** The expense table *)

Module Expense.
(** Modelled from the spec: the [Expense] model of models.py, which is
    not part of the sources at hand. Section 3 of the specification gives
    the columns: an integer id, a decimal amount, a category string and a
    calendar date, none of them nullable. An amount is the decimal that
    was entered; [Num.store] gives the number that the column holds for
    it. *)
Record t := mk { id : Z; amount : Q; category : string; date : Py.date }.
End Expense.

(** ** Response models (stats_models.py) *)

Module CategoryStats.
Record t := mk { category : string; total : Q; count : Z; average : Q }.
End CategoryStats.

Module OverallStats.
Record t := mk { total : Q; count : Z; average : Q; min : Q; max : Q }.
End OverallStats.

Module DailyStats.
Record t := mk { date : string; total : Q; count : Z }.
End DailyStats.

Module WeeklyStats.
Record t := mk { week : string; start_date : string; end_date : string;
                 total : Q; count : Z }.
End WeeklyStats.

Module MonthlyStats.
Record t := mk { month : string; total : Q; count : Z; average : Q }.
End MonthlyStats.

(** ** The SQL query pipeline *)

Module Sql.

(** GROUP BY: rows are put, one after the other, into the group of their
    key; a key not seen before opens a new group. *)
Section GroupBy.
Context {R K : Type}.
Variable key : R -> K.
Variable eqb : K -> K -> bool.

Fixpoint add_row (r : R) (gs : list (K * list R)) : list (K * list R) :=
  match gs with
  | [] => [(key r, [r])]
  | (k, g) :: gs' =>
      if eqb (key r) k then (k, (g ++ [r])%list) :: gs'
      else (k, g) :: add_row r gs'
  end.

Definition group_by (rows : list R) : list (K * list R) :=
  fold_left (fun gs r => add_row r gs) rows [].
End GroupBy.

(** ORDER BY e DESC: a stable insertion sort on the sort expression. SQL
    leaves the order of rows with equal sort keys open; this is one of
    the orders it allows. *)
Section OrderBy.
Context {G B : Type}.
Variable e : G -> B.
Variable leb : B -> B -> bool.

Fixpoint insert_desc (x : G) (l : list G) : list G :=
  match l with
  | [] => [x]
  | y :: t => if leb (e y) (e x) then x :: y :: t else y :: insert_desc x t
  end.

Definition order_by_desc (l : list G) : list G :=
  fold_right insert_desc [] l.
End OrderBy.

(** Aggregate functions; over no rows all but count are NULL. SUM and AVG
    are here those of exact decimal arithmetic; [sum_in] and [avg_in]
    below are those of an arithmetic given as a parameter, and of the
    doubles of SQLite in particular. *)
Definition count {R : Type} (rows : list R) : Z := Z.of_nat (List.length rows).

Definition total (xs : list Q) : Q := fold_left Qplus xs 0%Q.

Definition sum (xs : list Q) : option Q :=
  match xs with [] => None | _ => Some (total xs) end.

Definition avg (xs : list Q) : option Q :=
  match xs with [] => None | _ => Some (total xs / inject_Z (count xs))%Q end.

(** MIN and MAX under the order [leb] of the column. *)
Section MinMax.
Context {A : Type}.
Variable leb : A -> A -> bool.

Definition least (xs : list A) : option A :=
  match xs with
  | [] => None
  | x :: t => Some (fold_left (fun m y => if leb m y then m else y) t x)
  end.

Definition greatest (xs : list A) : option A :=
  match xs with
  | [] => None
  | x :: t => Some (fold_left (fun m y => if leb y m then m else y) t x)
  end.
End MinMax.

(** Comparison of values that may be NULL: NULL sorts below everything. *)
Definition opt_leb {A : Type} (leb : A -> A -> bool) (x y : option A) : bool :=
  match x, y with
  | None, _ => true
  | Some _, None => false
  | Some a, Some b => leb a b
  end.

(** Text comparison under the BINARY collation. *)
Definition text_leb (a b : string) : bool := String.leb a b.

End Sql.

(** ** The endpoints (stats_routes.py), on exact decimal amounts *)

(** The columns that the aggregate functions are applied to. *)
Definition amounts (rows : list Expense.t) : list Q := map Expense.amount rows.
Definition dates (rows : list Expense.t) : list Py.date := map Expense.date rows.

(** [if start_date: query = query.filter(Expense.date >= start_date)].
    A date object is always true, so the test is on the parameter being
    given. Dates are stored as YYYY-MM-DD text, whose order is the order of
    the dates. *)
Definition filter_from (start_date : option Py.date) (query : list Expense.t)
  : list Expense.t :=
  match start_date with
  | Some s => filter (fun x => Py.date_leb s (Expense.date x)) query
  | None => query
  end.

(** [if end_date: query = query.filter(Expense.date <= end_date)] *)
Definition filter_to (end_date : option Py.date) (query : list Expense.t)
  : list Expense.t :=
  match end_date with
  | Some e => filter (fun x => Py.date_leb (Expense.date x) e) query
  | None => query
  end.

(** GET /api/stats/by-category *)
Definition get_stats_by_category (start_date end_date : option Py.date)
    (db : list Expense.t) : Result (list CategoryStats.t) :=
  let query := db in
  let query := filter_from start_date query in
  let query := filter_to end_date query in
  let results :=
    map (fun '(c, g) => (c, Sql.sum (amounts g), Sql.count g, Sql.avg (amounts g)))
      (Sql.order_by_desc (fun '(_, g) => Sql.sum (amounts g)) (Sql.opt_leb Qle_bool)
         (Sql.group_by Expense.category String.eqb query)) in
  for_each (fun '(category, total, count, average) =>
    t <- round total ;;
    a <- round average ;;
    Ok (CategoryStats.mk category t count a)) results.

(** GET /api/stats/total *)
Definition get_stats_total (start_date end_date : option Py.date)
    (db : list Expense.t) : Result OverallStats.t :=
  let query := db in
  let query := filter_from start_date query in
  let query := filter_to end_date query in
  let result :=
    (Sql.sum (amounts query), Sql.count query, Sql.avg (amounts query),
     Sql.least Qle_bool (amounts query), Sql.greatest Qle_bool (amounts query)) in
  let '(r0, r1, r2, r3, r4) := result in
  match r0 with
  | None => Ok (OverallStats.mk 0 0 0 0 0)
  | Some _ =>
      t <- round r0 ;;
      a <- round r2 ;;
      mn <- round r3 ;;
      mx <- round r4 ;;
      Ok (OverallStats.mk t r1 a mn mx)
  end.

(** The daily branch of GET /api/stats/by-date, from the filtered query
    on: grouped by date, latest first. *)
Definition by_date_daily (query : list Expense.t) : Result (list DailyStats.t) :=
  let results :=
    map (fun '(d, g) => (d, Sql.sum (amounts g), Sql.count g))
      (Sql.order_by_desc fst Py.date_leb
         (Sql.group_by Expense.date Py.date_eqb query)) in
  for_each (fun '(date_val, total, count) =>
    t <- round total ;;
    Ok (DailyStats.mk (Py.str (Some date_val)) t count)) results.

(** [func.strftime('%Y-W%W', Expense.date)] *)
Definition week_key (x : Expense.t) : string := Sqlite.strftime_Y_W (Expense.date x).

(** The weekly branch, from the filtered query on: grouped by week key,
    with the earliest and latest date of each group, latest key first. *)
Definition by_date_weekly (query : list Expense.t) : Result (list WeeklyStats.t) :=
  let results :=
    map (fun '(w, g) =>
           (w, Sql.least Py.date_leb (dates g), Sql.greatest Py.date_leb (dates g),
            Sql.sum (amounts g), Sql.count g))
      (Sql.order_by_desc fst Sql.text_leb
         (Sql.group_by week_key String.eqb query)) in
  for_each (fun '(week, start, end_, total, count) =>
    t <- round total ;;
    Ok (WeeklyStats.mk week (Py.str start) (Py.str end_) t count)) results.

(** GET /api/stats/by-date. [grouping] is [None] when the request does not
    give the parameter, whose declared default is "daily". The body tests
    for 'daily' and has the weekly query as its [else]; that the value is
    one of the two is the concern of the framework, before the call. The
    rows are dictionaries of one of two shapes. *)
Definition get_stats_by_date (start_date end_date : option Py.date)
    (grouping : option string) (db : list Expense.t)
  : Result (list (DailyStats.t + WeeklyStats.t)) :=
  let grouping := match grouping with Some g => g | None => "daily" end in
  if String.eqb grouping "daily" then
    let query := db in
    let query := filter_from start_date query in
    let query := filter_to end_date query in
    stats <- by_date_daily query ;;
    Ok (map inl stats)
  else
    let query := db in
    let query := filter_from start_date query in
    let query := filter_to end_date query in
    stats <- by_date_weekly query ;;
    Ok (map inr stats).

(** [func.strftime('%Y-%m', Expense.date)] *)
Definition month_key (x : Expense.t) : string := Sqlite.strftime_Y_m (Expense.date x).

(** GET /api/stats/by-month *)
Definition get_stats_by_month (db : list Expense.t) : Result (list MonthlyStats.t) :=
  let results :=
    map (fun '(m, g) => (m, Sql.sum (amounts g), Sql.count g, Sql.avg (amounts g)))
      (Sql.order_by_desc fst Sql.text_leb
         (Sql.group_by month_key String.eqb db)) in
  for_each (fun '(month, total, count, average) =>
    t <- round total ;;
    a <- round average ;;
    Ok (MonthlyStats.mk month t count a)) results.

(** * The endpoints in the arithmetic of the database

    SQLite keeps the amounts of a FLOAT column, adds them up and divides
    them as IEEE 754 binary64 numbers, and Python rounds the doubles it
    gets back. The endpoints are given here once more with that arithmetic
    as a parameter: the queries and the loops are those of the previous
    part, the numbers are those of the arithmetic. *)

(** ** IEEE 754 binary64 *)

Module Double.

Definition prec : Z := 53.
Definition emax : Z := 1024.

Definition t : Type := spec_float.

(** The double nearest to a rational, ties to even: what a decimal literal
    or a bound parameter becomes in a FLOAT column. *)
Definition of_Q (q : Q) : t :=
  match Qnum q with
  | Z0 => S754_zero false
  | Zpos n => SFdiv prec emax (S754_finite false n 0) (S754_finite false (Qden q) 0)
  | Zneg n => SFdiv prec emax (S754_finite true n 0) (S754_finite false (Qden q) 0)
  end.

(** The exact value of a finite double. *)
Definition to_Q (x : t) : Q :=
  match x with
  | S754_finite s m e =>
      let v := match e with
               | Zneg p => Qmake (Zpos m) (2 ^ p)
               | _ => inject_Z (Zpos m * 2 ^ e)
               end in
      if s then Qopp v else v
  | _ => 0%Q
  end.

Definition zero : t := S754_zero false.
Definition add : t -> t -> t := SFadd prec emax.
Definition div : t -> t -> t := SFdiv prec emax.

(** [(double)n] of a 64-bit count. *)
Definition of_Z (n : Z) : t := binary_normalize prec emax n 0 false.

Definition is_nan (x : t) : bool :=
  match x with S754_nan => true | _ => false end.

(** Comparison of two REAL values; a NaN, which SQLite never keeps, is
    put below everything to make the order total. *)
Definition leb (x y : t) : bool :=
  match SFcompare x y with
  | Some Gt => false
  | Some _ => true
  | None => is_nan x
  end.

(** [round(x, 2)] on a float: the decimal with two places nearest to the
    exact value of [x], ties to even, then the double nearest to that
    decimal; zeros, infinities and NaN are returned as they are, and a
    result of zero keeps the sign of [x]. *)
Definition round2 (x : t) : t :=
  match x with
  | S754_finite s m e =>
      let z := Py.round_half_even (to_Q x * inject_Z 100) in
      if z =? 0 then S754_zero s else of_Q (Qmake z 100)
  | _ => x
  end.

End Double.

(** ** An arithmetic *)

Module Num.

Record arith : Type := mk {
  num : Type;
  (** the number that the column holds for a decimal amount *)
  store : Q -> num;
  (** the running total of SUM before the first row, and its step *)
  zero : num;
  add : num -> num -> num;
  (** the division of AVG and the count as a number *)
  div : num -> num -> num;
  of_count : Z -> num;
  (** comparison of MIN, MAX and ORDER BY *)
  leb : num -> num -> bool;
  (** a result that SQLite hands back as NULL *)
  is_null : num -> bool;
  (** Python's [round(x, 2)] *)
  round2 : num -> num
}.

(** The doubles of SQLite and Python. *)
Definition double : arith :=
  mk Double.t Double.of_Q Double.zero Double.add Double.div Double.of_Z
     Double.leb Double.is_nan Double.round2.

(** Exact decimal arithmetic, in which nothing is NULL. *)
Definition decimal : arith :=
  mk Q (fun q => q) 0%Q Qplus Qdiv inject_Z Qle_bool (fun _ => false) Py.round2.

End Num.

(** ** Response models with the numbers of an arithmetic *)

Module Stats.

Record category (N : Type) : Type :=
  mk_category { category_name : string; category_total : N;
                category_count : Z; category_average : N }.

Record overall (N : Type) : Type :=
  mk_overall { overall_total : N; overall_count : Z; overall_average : N;
               overall_min : N; overall_max : N }.

Record daily (N : Type) : Type :=
  mk_daily { daily_date : string; daily_total : N; daily_count : Z }.

Record weekly (N : Type) : Type :=
  mk_weekly { weekly_week : string; weekly_start_date : string;
              weekly_end_date : string; weekly_total : N; weekly_count : Z }.

Record monthly (N : Type) : Type :=
  mk_monthly { monthly_month : string; monthly_total : N;
               monthly_count : Z; monthly_average : N }.

Arguments mk_category {N}. Arguments category_name {N}. Arguments category_total {N}.
Arguments category_count {N}. Arguments category_average {N}.
Arguments mk_overall {N}. Arguments overall_total {N}. Arguments overall_count {N}.
Arguments overall_average {N}. Arguments overall_min {N}. Arguments overall_max {N}.
Arguments mk_daily {N}. Arguments daily_date {N}. Arguments daily_total {N}.
Arguments daily_count {N}.
Arguments mk_weekly {N}. Arguments weekly_week {N}. Arguments weekly_start_date {N}.
Arguments weekly_end_date {N}. Arguments weekly_total {N}. Arguments weekly_count {N}.
Arguments mk_monthly {N}. Arguments monthly_month {N}. Arguments monthly_total {N}.
Arguments monthly_count {N}. Arguments monthly_average {N}.

End Stats.

(** ** Aggregates and endpoints over an arithmetic *)

Section InArith.
Variable A : Num.arith.

(** The amount column of some rows, as the database holds it. *)
Definition stored (rows : list Expense.t) : list (Num.num A) :=
  map (fun x => Num.store A (Expense.amount x)) rows.

(** A computed number as it comes back from SQLite. *)
Definition nullable (x : Num.num A) : option (Num.num A) :=
  if Num.is_null A x then None else Some x.

(** SUM adds the amounts to the running total one after the other. *)
Definition total_in (xs : list (Num.num A)) : Num.num A :=
  fold_left (Num.add A) xs (Num.zero A).

Definition sum_in (xs : list (Num.num A)) : option (Num.num A) :=
  match xs with [] => None | _ => nullable (total_in xs) end.

(** AVG divides the running total by the number of rows. *)
Definition average_in (xs : list (Num.num A)) : Num.num A :=
  Num.div A (total_in xs) (Num.of_count A (Sql.count xs)).

Definition avg_in (xs : list (Num.num A)) : option (Num.num A) :=
  match xs with [] => None | _ => nullable (average_in xs) end.

(** [round(x, 2)] on a value of a result row, [None] raising the
    TypeError that becomes the 500 response. *)
Definition round_in (x : option (Num.num A)) : Result (Num.num A) :=
  match x with
  | Some v => Ok (Num.round2 A v)
  | None => HTTPException 500 "type NoneType doesn't define __round__ method"
  end.

(** GET /api/stats/by-category *)
Definition get_stats_by_category_in (start_date end_date : option Py.date)
    (db : list Expense.t) : Result (list (Stats.category (Num.num A))) :=
  let query := db in
  let query := filter_from start_date query in
  let query := filter_to end_date query in
  let results :=
    map (fun '(c, g) => (c, sum_in (stored g), Sql.count g, avg_in (stored g)))
      (Sql.order_by_desc (fun '(_, g) => sum_in (stored g)) (Sql.opt_leb (Num.leb A))
         (Sql.group_by Expense.category String.eqb query)) in
  for_each (fun '(category, total, count, average) =>
    t <- round_in total ;;
    a <- round_in average ;;
    Ok (Stats.mk_category category t count a)) results.

(** GET /api/stats/total *)
Definition get_stats_total_in (start_date end_date : option Py.date)
    (db : list Expense.t) : Result (Stats.overall (Num.num A)) :=
  let query := db in
  let query := filter_from start_date query in
  let query := filter_to end_date query in
  let result :=
    (sum_in (stored query), Sql.count query, avg_in (stored query),
     Sql.least (Num.leb A) (stored query), Sql.greatest (Num.leb A) (stored query)) in
  let '(r0, r1, r2, r3, r4) := result in
  match r0 with
  | None =>
      Ok (Stats.mk_overall (Num.of_count A 0) 0 (Num.of_count A 0)
            (Num.of_count A 0) (Num.of_count A 0))
  | Some _ =>
      t <- round_in r0 ;;
      a <- round_in r2 ;;
      mn <- round_in r3 ;;
      mx <- round_in r4 ;;
      Ok (Stats.mk_overall t r1 a mn mx)
  end.

(** The daily and the weekly branch of GET /api/stats/by-date. *)
Definition by_date_daily_in (query : list Expense.t)
  : Result (list (Stats.daily (Num.num A))) :=
  let results :=
    map (fun '(d, g) => (d, sum_in (stored g), Sql.count g))
      (Sql.order_by_desc fst Py.date_leb
         (Sql.group_by Expense.date Py.date_eqb query)) in
  for_each (fun '(date_val, total, count) =>
    t <- round_in total ;;
    Ok (Stats.mk_daily (Py.str (Some date_val)) t count)) results.

Definition by_date_weekly_in (query : list Expense.t)
  : Result (list (Stats.weekly (Num.num A))) :=
  let results :=
    map (fun '(w, g) =>
           (w, Sql.least Py.date_leb (dates g), Sql.greatest Py.date_leb (dates g),
            sum_in (stored g), Sql.count g))
      (Sql.order_by_desc fst Sql.text_leb
         (Sql.group_by week_key String.eqb query)) in
  for_each (fun '(week, start, end_, total, count) =>
    t <- round_in total ;;
    Ok (Stats.mk_weekly week (Py.str start) (Py.str end_) t count)) results.

(** GET /api/stats/by-date *)
Definition get_stats_by_date_in (start_date end_date : option Py.date)
    (grouping : option string) (db : list Expense.t)
  : Result (list (Stats.daily (Num.num A) + Stats.weekly (Num.num A))) :=
  let grouping := match grouping with Some g => g | None => "daily" end in
  if String.eqb grouping "daily" then
    let query := db in
    let query := filter_from start_date query in
    let query := filter_to end_date query in
    stats <- by_date_daily_in query ;;
    Ok (map inl stats)
  else
    let query := db in
    let query := filter_from start_date query in
    let query := filter_to end_date query in
    stats <- by_date_weekly_in query ;;
    Ok (map inr stats).

(** GET /api/stats/by-month *)
Definition get_stats_by_month_in (db : list Expense.t)
  : Result (list (Stats.monthly (Num.num A))) :=
  let results :=
    map (fun '(m, g) => (m, sum_in (stored g), Sql.count g, avg_in (stored g)))
      (Sql.order_by_desc fst Sql.text_leb
         (Sql.group_by month_key String.eqb db)) in
  for_each (fun '(month, total, count, average) =>
    t <- round_in total ;;
    a <- round_in average ;;
    Ok (Stats.mk_monthly month t count a)) results.

End InArith.

(** * Vocabulary of the properties *)

(** ** Groups and orders *)

(** The rows of [l] whose key is [k]. *)
Definition rows_of {R K : Type} (key : R -> K) (eqb : K -> K -> bool)
    (k : K) (l : list R) : list R :=
  filter (fun r => eqb (key r) k) l.

(** What holds of the groups once the rows [l] have been put in. *)
Record grouped {R K : Type} (key : R -> K) (eqb : K -> K -> bool)
    (gs : list (K * list R)) (l : list R) : Prop := {
  grouped_nodup : NoDup (map fst gs);
  grouped_rows : forall k g, In (k, g) gs -> g <> [] /\ g = rows_of key eqb k l;
  grouped_all : forall r, In r l -> In (key r) (map fst gs)
}.

(** [x] comes before [y] in a descending order of [e]. *)
Definition desc {G B : Type} (e : G -> B) (leb : B -> B -> bool) (x y : G) : Prop :=
  leb (e y) (e x) = true.

(** The groups of a breakdown by a text key, in the order of the result. *)
Definition keyed_groups (key : Expense.t -> string) (rows : list Expense.t)
  : list (string * list Expense.t) :=
  Sql.order_by_desc fst Sql.text_leb (Sql.group_by key String.eqb rows).

(** ** The date filter *)

(** The filtered table that an endpoint with date parameters works on. *)
Definition filtered (start_date end_date : option Py.date) (db : list Expense.t)
  : list Expense.t :=
  filter_to end_date (filter_from start_date db).

(** The date-range test that the two optional WHERE clauses make up. *)
Definition in_range (start_date end_date : option Py.date) (x : Expense.t) : bool :=
  match start_date with Some s => Py.date_leb s (Expense.date x) | None => true end
  && match end_date with Some e => Py.date_leb (Expense.date x) e | None => true end.

(** ** Rows of the breakdowns *)

(** The groups of the category breakdown, in the order of the result. *)
Definition category_groups (rows : list Expense.t) : list (string * list Expense.t) :=
  Sql.order_by_desc (fun '(_, g) => Sql.sum (amounts g)) (Sql.opt_leb Qle_bool)
    (Sql.group_by Expense.category String.eqb rows).

(** The row that the response loop makes of a group. *)
Definition category_row (cg : string * list Expense.t) : CategoryStats.t :=
  let (c, g) := cg in
  CategoryStats.mk c (Py.round2 (Sql.total (amounts g))) (Sql.count g)
    (Py.round2 (Sql.total (amounts g) / inject_Z (Sql.count g))).

(** The counts of the rows of a category breakdown, added up. *)
Definition sum_counts (stats : list CategoryStats.t) : Z :=
  fold_right Z.add 0 (map CategoryStats.count stats).

(** ** Weeks of the year *)

(** Days of the week as SQLite numbers them for [%W]. *)
Definition monday : Z := 0.
Definition sunday : Z := 6.

(** The day numbers of the days of the year of [d], from the first of
    January up to [d] itself. *)
Definition year_days_upto (d : Py.date) : list Z :=
  map (fun i => Sqlite.julian_day (Py.year d) 1 1 + Z.of_nat i)
      (seq 0 (S (Z.to_nat (Sqlite.day_of_year0 d)))).

(** Week number under the convention that a week starts on [first_day]:
    the days before the first such day of the year are week 0 and the
    number goes up by one on every such day. That is how many of them
    the year has had up to [d]. *)
Definition week_starting (first_day : Z) (d : Py.date) : Z :=
  Z.of_nat (List.length (filter (fun j => j mod 7 =? first_day) (year_days_upto d))).

(** The week key YYYY-Wnn under that convention. *)
Definition week_key_starting (first_day : Z) (d : Py.date) : string :=
  (Py.zero_pad 4 (Py.year d) ++ "-W" ++ Py.zero_pad 2 (week_starting first_day d))%string.

(** The rows that the response loops make of a week and of a month. *)
Definition weekly_row (wg : string * list Expense.t) : WeeklyStats.t :=
  let (w, g) := wg in
  WeeklyStats.mk w
    (Py.str (Sql.least Py.date_leb (dates g)))
    (Py.str (Sql.greatest Py.date_leb (dates g)))
    (Py.round2 (Sql.total (amounts g))) (Sql.count g).

Definition monthly_row (mg : string * list Expense.t) : MonthlyStats.t :=
  let (m, g) := mg in
  MonthlyStats.mk m (Py.round2 (Sql.total (amounts g))) (Sql.count g)
    (Py.round2 (Sql.total (amounts g) / inject_Z (Sql.count g))).

(** The row that a weekly breakdown naming its buckets by [name_of] has
    for the bucket of [x]: the bucket holds the rows of the same name. *)
Definition bucket_row (name_of : Py.date -> string) (rows : list Expense.t)
    (x : Expense.t) : WeeklyStats.t :=
  weekly_row
    (name_of (Expense.date x),
     filter (fun r => String.eqb (name_of (Expense.date r)) (name_of (Expense.date x)))
       rows).

(** The weekly breakdown puts every row of the filtered table into the
    bucket that [name_of] names. *)
Definition weekly_buckets_by (name_of : Py.date -> string)
    (start_date end_date : option Py.date) (db : list Expense.t) : Prop :=
  exists stats,
    get_stats_by_date start_date end_date (Some "weekly"%string) db = Ok stats /\
    forall x, In x (filtered start_date end_date db) ->
      In (inr (bucket_row name_of (filtered start_date end_date db) x)) stats.

(** ** ISO 8601 weeks *)

(** The day number of the Monday that begins the ISO week of [d]; two
    dates are in the same ISO week when they share it. *)
Definition iso_week_monday (d : Py.date) : Z := Sqlite.jd d - Sqlite.weekday d.

Definition same_iso_week (a b : Py.date) : Prop :=
  iso_week_monday a = iso_week_monday b.

(** ** Scenarios of the specification *)

(** The three expenses of the category scenario. *)
Definition scenario_categories : list Expense.t :=
  [ Expense.mk 1 10.00 "food" (Py.mkdate 2024 1 1);
    Expense.mk 2 20.005 "food" (Py.mkdate 2024 1 1);
    Expense.mk 3 5.00 "transport" (Py.mkdate 2024 1 2) ].

(** Two results agree when their texts and counts are equal and their
    amounts are equal as numbers. *)
Definition same_category_stats (a b : CategoryStats.t) : Prop :=
  CategoryStats.category a = CategoryStats.category b /\
  (CategoryStats.total a == CategoryStats.total b)%Q /\
  CategoryStats.count a = CategoryStats.count b /\
  (CategoryStats.average a == CategoryStats.average b)%Q.

Definition returns_categories (r : Result (list CategoryStats.t))
    (expected : list CategoryStats.t) : Prop :=
  exists stats, r = Ok stats /\ Forall2 same_category_stats stats expected.

(** The days of the week-boundary scenarios. *)
Definition sunday_2024_12_29 : Py.date := Py.mkdate 2024 12 29.
Definition monday_2024_12_30 : Py.date := Py.mkdate 2024 12 30.
Definition sunday_2023_01_01 : Py.date := Py.mkdate 2023 1 1.

(** ** Vocabulary of the further properties *)

(** The groups of the daily breakdown, in the order of the result, and the
    row that the response loop makes of one. *)
Definition daily_groups (rows : list Expense.t) : list (Py.date * list Expense.t) :=
  Sql.order_by_desc fst Py.date_leb (Sql.group_by Expense.date Py.date_eqb rows).

Definition daily_row (dg : Py.date * list Expense.t) : DailyStats.t :=
  let (dt, g) := dg in
  DailyStats.mk (Py.isoformat dt) (Py.round2 (Sql.total (amounts g))) (Sql.count g).

(** Numbers added up, as a reader of a response would add its counts. *)
Definition add_up (l : list Z) : Z := fold_right Z.add 0 l.

(** Year and month, and year and week, in chronological order. *)
Definition month_before (a b : Py.date) : Prop :=
  Py.year a < Py.year b \/ (Py.year a = Py.year b /\ Py.month a < Py.month b).

Definition week_before (a b : Py.date) : Prop :=
  Py.year a < Py.year b \/
  (Py.year a = Py.year b /\ Sqlite.week_of_year a < Sqlite.week_of_year b).

(** The character of a decimal digit. *)
Definition digit (n : Z) : ascii := ascii_of_nat (48 + Z.to_nat n).

(** Numbers below a hundred and below ten thousand written with two and
    with four digits. *)
Definition two_digits (n : Z) : string :=
  String (digit (n / 10)) (String (digit (n mod 10)) EmptyString).

Definition four_digits (n : Z) : string :=
  String (digit (n / 1000)) (String (digit (n / 100 mod 10))
    (String (digit (n / 10 mod 10)) (String (digit (n mod 10)) EmptyString))).

(** ** Vocabulary of the endpoints over an arithmetic *)

(** The message of the TypeError that [round] raises on [None]. *)
Definition round_none : string := "type NoneType doesn't define __round__ method".

(** The SUM of a group comes back as NULL; its SUM or its AVG does. *)
Definition null_total_in (A : Num.arith) (g : list Expense.t) : bool :=
  Num.is_null A (total_in A (stored A g)).

Definition null_row_in (A : Num.arith) (g : list Expense.t) : bool :=
  Num.is_null A (total_in A (stored A g))
  || Num.is_null A (average_in A (stored A g)).

(** The groups of the category breakdown, in the order of the result. *)
Definition category_groups_in (A : Num.arith) (rows : list Expense.t)
  : list (string * list Expense.t) :=
  Sql.order_by_desc (fun '(_, g) => sum_in A (stored A g)) (Sql.opt_leb (Num.leb A))
    (Sql.group_by Expense.category String.eqb rows).

(** The rows that the response loops make of a group. *)
Definition category_row_in (A : Num.arith) (cg : string * list Expense.t)
  : Stats.category (Num.num A) :=
  Stats.mk_category (fst cg)
    (Num.round2 A (total_in A (stored A (snd cg))))
    (Sql.count (snd cg))
    (Num.round2 A (average_in A (stored A (snd cg)))).

Definition monthly_row_in (A : Num.arith) (mg : string * list Expense.t)
  : Stats.monthly (Num.num A) :=
  Stats.mk_monthly (fst mg)
    (Num.round2 A (total_in A (stored A (snd mg))))
    (Sql.count (snd mg))
    (Num.round2 A (average_in A (stored A (snd mg)))).

Definition daily_row_in (A : Num.arith) (dg : Py.date * list Expense.t)
  : Stats.daily (Num.num A) :=
  Stats.mk_daily (Py.isoformat (fst dg))
    (Num.round2 A (total_in A (stored A (snd dg))))
    (Sql.count (snd dg)).

(** A key of a double whose order, component by component, is the order
    of [Double.leb]. *)
Definition rank (x : Double.t) : Z * Z * Z :=
  match x with
  | S754_nan => (-3, 0, 0)
  | S754_infinity true => (-2, 0, 0)
  | S754_finite true m e => (-1, - e, - Zpos m)
  | S754_zero _ => (0, 0, 0)
  | S754_finite false m e => (1, e, Zpos m)
  | S754_infinity false => (2, 0, 0)
  end.

Definition lex_le (p q : Z * Z * Z) : Prop :=
  let '(a, b, c) := p in let '(a', b', c') := q in
  a < a' \/ (a = a' /\ (b < b' \/ (b = b' /\ c <= c'))).

(** A decimal amount as a double, for the examples. *)
Definition dbl (q : Q) : Double.t := Double.of_Q q.

(** * Properties *)

(** ** The date functions on known days *)

Example strftime_Y_W_samples :
  map Sqlite.strftime_Y_W
    [Py.mkdate 2024 12 29; Py.mkdate 2024 12 30; Py.mkdate 2023 1 1; Py.mkdate 2024 1 1]
  = ["2024-W52"; "2024-W53"; "2023-W00"; "2024-W01"]%string.
Proof. reflexivity. Qed.

Example strftime_Y_m_samples :
  map Sqlite.strftime_Y_m [Py.mkdate 2024 1 2; Py.mkdate 999 12 31]
  = ["2024-01"; "0999-12"]%string.
Proof. reflexivity. Qed.

Example isoformat_samples :
  map Py.isoformat [Py.mkdate 2024 1 2; Py.mkdate 999 12 31]
  = ["2024-01-02"; "0999-12-31"]%string.
Proof. reflexivity. Qed.

Example round2_samples :
  map Py.round2 [30.005; 30.015; 15.0025; 11.668; 5]%Q
  = [30.00; 30.02; 15.00; 11.67; 5.00]%Q.
Proof. reflexivity. Qed.

(** ** GROUP BY *)

Section GroupByFacts.
Context {R K : Type}.
Variable key : R -> K.
Variable eqb : K -> K -> bool.
Hypothesis eqb_eq : forall a b, eqb a b = true <-> a = b.

Local Abbreviation add_row := (Sql.add_row key eqb).
Local Abbreviation group_by := (Sql.group_by key eqb).

Lemma eqb_refl' k : eqb k k = true.
Proof. now apply eqb_eq. Qed.

Lemma eqb_neq' a b : a <> b -> eqb a b = false.
Proof.
  intro Hne. destruct (eqb a b) eqn:E; [|reflexivity].
  apply eqb_eq in E. contradiction.
Qed.

Lemma key_dec (a b : K) : {a = b} + {a <> b}.
Proof.
  destruct (eqb a b) eqn:E.
  - left. now apply eqb_eq.
  - right. intro H. apply eqb_eq in H. congruence.
Qed.

Lemma add_row_rows r gs :
  Permutation (List.concat (map snd (add_row r gs))) (r :: List.concat (map snd gs)).
Proof.
  induction gs as [|[k g] gs IH]; simpl; [reflexivity|].
  destruct (eqb (key r) k); simpl.
  - rewrite <- app_assoc. simpl.
    symmetry. apply Permutation_middle.
  - rewrite IH. symmetry. apply Permutation_middle.
Qed.

Lemma add_row_keys_old r gs :
  In (key r) (map fst gs) -> map fst (add_row r gs) = map fst gs.
Proof.
  induction gs as [|[k g] gs IH]; simpl; [tauto|].
  intros [Hk|Hin].
  - subst k. now rewrite eqb_refl'.
  - destruct (eqb (key r) k); simpl; [reflexivity|].
    now rewrite IH.
Qed.

Lemma add_row_keys_new r gs :
  ~ In (key r) (map fst gs) ->
  map fst (add_row r gs) = (map fst gs ++ [key r])%list.
Proof.
  induction gs as [|[k g] gs IH]; simpl; [reflexivity|].
  intros Hn. rewrite eqb_neq' by (intro; subst; tauto).
  simpl. rewrite IH; tauto.
Qed.

Lemma add_row_In r gs k g :
  NoDup (map fst gs) ->
  In (k, g) (add_row r gs) ->
  (k = key r /\ exists g0, In (k, g0) gs /\ g = (g0 ++ [r])%list) \/
  (k = key r /\ g = [r] /\ ~ In k (map fst gs)) \/
  (k <> key r /\ In (k, g) gs).
Proof.
  induction gs as [|[k0 g0] gs IH]; simpl; intros Hnd Hin.
  - destruct Hin as [Heq|[]]. inversion Heq; subst. right; left. tauto.
  - inversion Hnd as [|? ? Hnotin Hnd']; subst.
    destruct (eqb (key r) k0) eqn:E.
    + apply eqb_eq in E. subst k0.
      destruct Hin as [Heq|Hin].
      * inversion Heq; subst. left. split; [reflexivity|].
        exists g0. split; [now left | reflexivity].
      * right; right. split; [|now right].
        intro; subst k. apply Hnotin.
        change (key r) with (fst (key r, g)). now apply in_map.
    + destruct Hin as [Heq|Hin].
      * inversion Heq; subst. right; right. split; [|now left].
        intro Hk. rewrite Hk, eqb_refl' in E. discriminate.
      * destruct (IH Hnd' Hin) as [[Hk [g1 [Hg1 Hg]]]|[[Hk [Hg Hn]]|[Hk Hg]]].
        -- left. split; [assumption|]. exists g1. split; [now right|assumption].
        -- right; left. repeat split; try assumption.
           intros [Hk0|Hin']; [|contradiction].
           subst k0 k. rewrite eqb_refl' in E. discriminate.
        -- right; right. split; [assumption|now right].
Qed.

Lemma grouped_nil : grouped key eqb [] [].
Proof. split; simpl; [constructor|tauto|tauto]. Qed.

Lemma rows_of_absent k l :
  (forall r, In r l -> key r <> k) -> rows_of key eqb k l = [].
Proof.
  induction l as [|r l IH]; simpl; intros H; [reflexivity|].
  rewrite eqb_neq' by (apply H; now left).
  apply IH. intros; apply H; now right.
Qed.

Lemma grouped_add r gs l :
  grouped key eqb gs l -> grouped key eqb (add_row r gs) (l ++ [r]).
Proof.
  intros [Hnd Hrows Hall]. split.
  - destruct (in_dec key_dec (key r) (map fst gs)) as [Hin|Hn].
    + now rewrite add_row_keys_old.
    + rewrite add_row_keys_new by assumption.
      apply NoDup_app; [assumption|repeat constructor; simpl; tauto|].
      intros x Hx [Hx'|[]]. subst. contradiction.
  - intros k g Hin.
    destruct (add_row_In r gs k g Hnd Hin)
      as [[Hk [g0 [Hg0 Hg]]]|[[Hk [Hg Hn]]|[Hk Hg]]]; unfold rows_of.
    + subst. split; [now destruct g0|].
      rewrite filter_app. simpl. rewrite eqb_refl'.
      f_equal. now apply Hrows.
    + subst. split; [discriminate|].
      rewrite filter_app. simpl. rewrite eqb_refl'.
      fold (rows_of key eqb (key r) l). rewrite rows_of_absent; [reflexivity|].
      intros r' Hr' Heq. apply Hn. rewrite <- Heq. now apply Hall.
    + destruct (Hrows k g Hg) as [Hne Hg']. split; [assumption|].
      rewrite filter_app. simpl.
      rewrite eqb_neq' by congruence. now rewrite app_nil_r.
  - intros r' Hr'. apply in_app_or in Hr'.
    destruct (in_dec key_dec (key r) (map fst gs)) as [Hin|Hn].
    + rewrite add_row_keys_old by assumption.
      destruct Hr' as [Hr'|[Hr'|[]]]; [now apply Hall | now subst].
    + rewrite add_row_keys_new by assumption. apply in_or_app.
      destruct Hr' as [Hr'|[Hr'|[]]]; [left; now apply Hall | right; subst; now left].
Qed.

Lemma fold_add_grouped rows : forall gs l,
  grouped key eqb gs l ->
  grouped key eqb (fold_left (fun gs r => add_row r gs) rows gs) (l ++ rows).
Proof.
  induction rows as [|r rows IH]; simpl; intros gs l H.
  - now rewrite app_nil_r.
  - replace (l ++ r :: rows)%list with ((l ++ [r]) ++ rows)%list
      by (rewrite <- app_assoc; reflexivity).
    apply IH. now apply grouped_add.
Qed.

(** GROUP BY yields one group per key that occurs, holding the rows of
    that key in table order. *)
Lemma group_by_grouped rows : grouped key eqb (group_by rows) rows.
Proof. apply (fold_add_grouped rows [] []), grouped_nil. Qed.

Lemma fold_add_rows rows : forall gs,
  Permutation
    (List.concat (map snd (fold_left (fun gs r => add_row r gs) rows gs)))
    (List.concat (map snd gs) ++ rows).
Proof.
  induction rows as [|r rows IH]; simpl; intros gs.
  - now rewrite app_nil_r.
  - rewrite IH, add_row_rows. simpl.
    apply Permutation_middle.
Qed.

Lemma group_by_rows rows :
  Permutation (List.concat (map snd (group_by rows))) rows.
Proof. apply (fold_add_rows rows []). Qed.

End GroupByFacts.

(** ** ORDER BY ... DESC *)

Section OrderByFacts.
Context {G B : Type}.
Variable e : G -> B.
Variable leb : B -> B -> bool.
Hypothesis leb_total : forall a b, leb a b = true \/ leb b a = true.
Hypothesis leb_trans : forall a b c, leb a b = true -> leb b c = true -> leb a c = true.

Local Abbreviation insert_desc := (Sql.insert_desc e leb).
Local Abbreviation order_by_desc := (Sql.order_by_desc e leb).

Lemma insert_desc_perm x l : Permutation (insert_desc x l) (x :: l).
Proof.
  induction l as [|y t IH]; simpl; [reflexivity|].
  destruct (leb (e y) (e x)); [reflexivity|].
  rewrite IH. apply perm_swap.
Qed.

Lemma order_by_desc_perm l : Permutation (order_by_desc l) l.
Proof.
  induction l as [|x l IH]; simpl; [reflexivity|].
  rewrite insert_desc_perm. now constructor.
Qed.

Lemma insert_desc_sorted x l :
  StronglySorted (desc e leb) l -> StronglySorted (desc e leb) (insert_desc x l).
Proof.
  induction l as [|y t IH]; simpl; intros Hs.
  - repeat constructor.
  - inversion Hs as [|? ? Ht Hy]; subst.
    destruct (leb (e y) (e x)) eqn:E.
    + constructor; [assumption|].
      constructor; [exact E|].
      rewrite Forall_forall in Hy |- *. intros z Hz.
      unfold desc. apply leb_trans with (e y); [now apply Hy | exact E].
    + constructor; [now apply IH|].
      rewrite Forall_forall in Hy |- *. intros z Hz.
      apply (Permutation_in _ (insert_desc_perm x t)) in Hz.
      destruct Hz as [Hz|Hz]; [|now apply Hy].
      subst z. unfold desc.
      destruct (leb_total (e x) (e y)) as [H|H]; [exact H|congruence].
Qed.

Lemma order_by_desc_sorted l : StronglySorted (desc e leb) (order_by_desc l).
Proof.
  induction l as [|x l IH]; simpl; [constructor|].
  now apply insert_desc_sorted.
Qed.
End OrderByFacts.

(** ** Order of dates, numbers and text *)

Lemma date_compare_spec (a b : Py.date) :
  match Py.date_compare a b with
  | Eq => a = b
  | Lt => Py.year a < Py.year b \/
          (Py.year a = Py.year b /\
           (Py.month a < Py.month b \/
            (Py.month a = Py.month b /\ Py.day a < Py.day b)))
  | Gt => Py.year b < Py.year a \/
          (Py.year a = Py.year b /\
           (Py.month b < Py.month a \/
            (Py.month a = Py.month b /\ Py.day b < Py.day a)))
  end.
Proof.
  destruct a as [ya ma da], b as [yb mb db]. unfold Py.date_compare. simpl.
  destruct (Z.compare_spec ya yb); [|lia|lia].
  destruct (Z.compare_spec ma mb); [|lia|lia].
  destruct (Z.compare_spec da db); [|lia|lia].
  now subst.
Qed.

Lemma date_leb_total a b : Py.date_leb a b = true \/ Py.date_leb b a = true.
Proof.
  unfold Py.date_leb.
  pose proof (date_compare_spec a b) as H. pose proof (date_compare_spec b a) as H'.
  destruct (Py.date_compare a b), (Py.date_compare b a); auto; lia.
Qed.

Lemma date_leb_trans a b c :
  Py.date_leb a b = true -> Py.date_leb b c = true -> Py.date_leb a c = true.
Proof.
  unfold Py.date_leb.
  pose proof (date_compare_spec a b) as H1. pose proof (date_compare_spec b c) as H2.
  pose proof (date_compare_spec a c) as H3.
  destruct (Py.date_compare a b), (Py.date_compare b c), (Py.date_compare a c);
    try discriminate; try reflexivity; intros _ _; subst; lia.
Qed.

Lemma text_leb_trans a : forall b c,
  Sql.text_leb a b = true -> Sql.text_leb b c = true -> Sql.text_leb a c = true.
Proof.
  unfold Sql.text_leb, String.leb.
  induction a as [|x a IH]; intros [|y b] [|z c]; simpl;
    try reflexivity; try discriminate.
  specialize (IH b c). unfold Ascii.compare.
  destruct (N.compare_spec (N_of_ascii x) (N_of_ascii y)) as [E1|E1|E1];
    destruct (N.compare_spec (N_of_ascii y) (N_of_ascii z)) as [E2|E2|E2];
    destruct (N.compare_spec (N_of_ascii x) (N_of_ascii z)) as [E3|E3|E3];
    try discriminate; try reflexivity; try assumption; intros _ _; lia.
Qed.

Lemma text_leb_total a b : Sql.text_leb a b = true \/ Sql.text_leb b a = true.
Proof. apply String.leb_total. Qed.

(** Distinct texts in descending order are in strictly descending order. *)
Lemma text_leb_ltb a b : Sql.text_leb a b = true -> a <> b -> String.ltb a b = true.
Proof.
  unfold Sql.text_leb, String.leb, String.ltb. intros H Hne.
  destruct (String.compare a b) eqn:E; try reflexivity; try discriminate.
  apply String.compare_eq_iff in E. contradiction.
Qed.

Lemma opt_Qleb_total (a b : option Q) :
  Sql.opt_leb Qle_bool a b = true \/ Sql.opt_leb Qle_bool b a = true.
Proof.
  destruct a as [a|], b as [b|]; simpl; auto.
  rewrite !Qle_bool_iff.
  destruct (Qlt_le_dec a b) as [H|H]; [left; now apply Qlt_le_weak | now right].
Qed.

Lemma opt_Qleb_trans (a b c : option Q) :
  Sql.opt_leb Qle_bool a b = true -> Sql.opt_leb Qle_bool b c = true ->
  Sql.opt_leb Qle_bool a c = true.
Proof.
  destruct a as [a|], b as [b|], c as [c|]; simpl; auto; try discriminate.
  rewrite !Qle_bool_iff. apply Qle_trans.
Qed.

Lemma for_each_map_ok {X A B : Type} (h : X -> A) (f : A -> Result B)
    (g : X -> B) (l : list X) :
  (forall x, In x l -> f (h x) = Ok (g x)) ->
  for_each f (map h l) = Ok (map g l).
Proof.
  intros H. rewrite <- (map_map h (fun a => a)), map_id.
  induction l as [|x t IH]; simpl; [reflexivity|].
  rewrite (H x) by now left. simpl.
  rewrite IH by (intros; apply H; now right). reflexivity.
Qed.

(** ** Aggregates over a group, which is never empty *)

Lemma sum_amounts g : g <> [] -> Sql.sum (amounts g) = Some (Sql.total (amounts g)).
Proof. destruct g; [congruence|reflexivity]. Qed.

Lemma avg_amounts g :
  g <> [] ->
  Sql.avg (amounts g)
  = Some (Sql.total (amounts g) / inject_Z (Sql.count g))%Q.
Proof.
  destruct g as [|x g]; [congruence|]. intros _.
  unfold Sql.avg, Sql.count, amounts.
  rewrite !length_map. reflexivity.
Qed.

(** ** What the endpoints return *)

Lemma category_groups_nonempty rows c g :
  In (c, g) (category_groups rows) -> g <> [].
Proof.
  intros Hin. apply (Permutation_in _ (order_by_desc_perm _ _ _)) in Hin.
  destruct (group_by_grouped Expense.category String.eqb String.eqb_eq rows) as [_ H _].
  now apply H in Hin.
Qed.

Lemma get_stats_by_category_ok sd ed db :
  get_stats_by_category sd ed db
  = Ok (map category_row (category_groups (filtered sd ed db))).
Proof.
  unfold get_stats_by_category. fold (filtered sd ed db).
  fold (category_groups (filtered sd ed db)).
  apply for_each_map_ok. intros [c g] Hin.
  apply category_groups_nonempty in Hin.
  rewrite sum_amounts, avg_amounts by assumption. reflexivity.
Qed.

Lemma filter_twice {A : Type} (f g : A -> bool) (l : list A) :
  filter g (filter f l) = filter (fun x => f x && g x) l.
Proof.
  induction l as [|a l IH]; simpl; [reflexivity|].
  destruct (f a); simpl; [destruct (g a)|]; now rewrite IH.
Qed.

Lemma filtered_filter sd ed db : filtered sd ed db = filter (in_range sd ed) db.
Proof.
  unfold filtered, filter_to, filter_from, in_range.
  destruct sd as [s|], ed as [e|].
  - apply filter_twice.
  - apply filter_ext. intros. now rewrite andb_true_r.
  - reflexivity.
  - induction db as [|a l IH]; [reflexivity|].
    simpl. f_equal. exact IH.
Qed.

Lemma in_range_iff sd ed x :
  in_range sd ed x = true <->
  (forall s, sd = Some s -> Py.date_le s (Expense.date x)) /\
  (forall e, ed = Some e -> Py.date_le (Expense.date x) e).
Proof.
  unfold in_range, Py.date_le. rewrite andb_true_iff. split.
  - intros [H1 H2]. split; intros ? ->; assumption.
  - intros [H1 H2]. split.
    + destruct sd; [now apply H1|reflexivity].
    + destruct ed; [now apply H2|reflexivity].
Qed.

Lemma date_ltb_not_between s e dt :
  Py.date_ltb e s = true -> Py.date_leb s dt = true -> Py.date_leb dt e = true -> False.
Proof.
  intros Hlt H1 H2. pose proof (date_leb_trans _ _ _ H1 H2) as H.
  unfold Py.date_ltb, Py.date_leb in *.
  pose proof (date_compare_spec e s) as A. pose proof (date_compare_spec s e) as B.
  destruct (Py.date_compare e s), (Py.date_compare s e); try discriminate; subst; lia.
Qed.

Lemma filtered_nil sd ed : filtered sd ed [] = [].
Proof. now destruct sd, ed. Qed.

Lemma filtered_inverted s e db :
  Py.date_lt e s -> filtered (Some s) (Some e) db = [].
Proof.
  intros Hlt. rewrite filtered_filter.
  induction db as [|x db IH]; simpl; [reflexivity|].
  rewrite IH. unfold in_range.
  destruct (Py.date_leb s (Expense.date x)) eqn:E1; [|reflexivity].
  destruct (Py.date_leb (Expense.date x) e) eqn:E2; [|reflexivity].
  exfalso. exact (date_ltb_not_between _ _ _ Hlt E1 E2).
Qed.

Lemma Permutation_concat {A : Type} (l l' : list (list A)) :
  Permutation l l' -> Permutation (List.concat l) (List.concat l').
Proof.
  induction 1; simpl.
  - reflexivity.
  - now apply Permutation_app_head.
  - rewrite !app_assoc. apply Permutation_app_tail, Permutation_app_comm.
  - etransitivity; eassumption.
Qed.

Lemma sum_counts_rows groups :
  sum_counts (map category_row groups)
  = Z.of_nat (List.length (List.concat (map snd groups))).
Proof.
  unfold sum_counts.
  induction groups as [|[c g] gs IH]; simpl; [reflexivity|].
  rewrite IH, length_app. unfold Sql.count. lia.
Qed.

Lemma category_groups_perm rows :
  Permutation (category_groups rows) (Sql.group_by Expense.category String.eqb rows).
Proof. apply order_by_desc_perm. Qed.

Lemma category_groups_grouped rows :
  grouped Expense.category String.eqb (category_groups rows) rows.
Proof.
  pose proof (group_by_grouped Expense.category String.eqb String.eqb_eq rows)
    as [Hnd Hrows Hall].
  pose proof (category_groups_perm rows) as P.
  split.
  - apply Permutation_NoDup with (map fst (Sql.group_by Expense.category String.eqb rows));
      [|assumption].
    symmetry. now apply Permutation_map.
  - intros k g Hin. apply Hrows. now apply (Permutation_in _ P).
  - intros r Hr. apply Permutation_in with (map fst (Sql.group_by Expense.category String.eqb rows)).
    + symmetry. now apply Permutation_map.
    + now apply Hall.
Qed.

Lemma category_groups_sorted rows :
  StronglySorted
    (fun a b => (Sql.total (amounts (snd b)) <= Sql.total (amounts (snd a)))%Q)
    (category_groups rows).
Proof.
  pose proof (order_by_desc_sorted (fun '(_, g) => Sql.sum (amounts g))
                (Sql.opt_leb Qle_bool) opt_Qleb_total opt_Qleb_trans
                (Sql.group_by Expense.category String.eqb rows)) as Hs.
  fold (category_groups rows) in Hs.
  assert (Hne : Forall (fun cg => snd cg <> []) (category_groups rows)).
  { apply Forall_forall. intros [c g] Hin. simpl.
    now apply category_groups_nonempty in Hin. }
  induction Hs as [|a l Hs IH Ha]; [constructor|].
  inversion Hne as [|? ? Hna Hnl]; subst.
  constructor; [now apply IH|].
  rewrite Forall_forall in Ha, Hnl |- *. intros b Hb.
  specialize (Ha b Hb). specialize (Hnl b Hb). unfold desc in Ha.
  destruct a as [ca ga], b as [cb gb]. simpl in *.
  rewrite !sum_amounts in Ha by assumption. simpl in Ha.
  now apply Qle_bool_iff.
Qed.

Lemma get_stats_total_empty sd ed db :
  filtered sd ed db = [] ->
  get_stats_total sd ed db = Ok (OverallStats.mk 0 0 0 0 0).
Proof.
  unfold get_stats_total. fold (filtered sd ed db). now intros ->.
Qed.

(** ** MIN and MAX *)

Section MinMaxFacts.
Context {A : Type}.
Variable leb : A -> A -> bool.
Hypothesis leb_total : forall a b, leb a b = true \/ leb b a = true.
Hypothesis leb_trans : forall a b c, leb a b = true -> leb b c = true -> leb a c = true.

Lemma leb_refl x : leb x x = true.
Proof. now destruct (leb_total x x). Qed.

Lemma fold_least t : forall x,
  let m := fold_left (fun m y => if leb m y then m else y) t x in
  In m (x :: t) /\ leb m x = true /\ Forall (fun y => leb m y = true) t.
Proof.
  induction t as [|y t IH]; intros x; simpl.
  - repeat split; [now left | apply leb_refl | constructor].
  - destruct (IH (if leb x y then x else y)) as [Hin [Hle Hall]].
    destruct (leb x y) eqn:E.
    + repeat split.
      * destruct Hin as [Hin|Hin]; [now left | right; now right].
      * assumption.
      * constructor; [now apply leb_trans with x | assumption].
    + assert (leb y x = true) by (destruct (leb_total x y); congruence).
      repeat split.
      * destruct Hin as [Hin|Hin]; [right; now left | right; now right].
      * now apply leb_trans with y.
      * constructor; assumption.
Qed.

Lemma fold_greatest t : forall x,
  let m := fold_left (fun m y => if leb y m then m else y) t x in
  In m (x :: t) /\ leb x m = true /\ Forall (fun y => leb y m = true) t.
Proof.
  induction t as [|y t IH]; intros x; simpl.
  - repeat split; [now left | apply leb_refl | constructor].
  - destruct (IH (if leb y x then x else y)) as [Hin [Hle Hall]].
    destruct (leb y x) eqn:E.
    + repeat split.
      * destruct Hin as [Hin|Hin]; [now left | right; now right].
      * assumption.
      * constructor; [now apply leb_trans with x | assumption].
    + assert (leb x y = true) by (destruct (leb_total x y); congruence).
      repeat split.
      * destruct Hin as [Hin|Hin]; [right; now left | right; now right].
      * now apply leb_trans with y.
      * constructor; assumption.
Qed.

Lemma least_spec xs :
  xs <> [] ->
  exists m, Sql.least leb xs = Some m /\ In m xs /\
            Forall (fun y => leb m y = true) xs.
Proof.
  destruct xs as [|x t]; [congruence|]. intros _.
  destruct (fold_least t x) as [Hin [Hle Hall]].
  eexists. split; [reflexivity|]. split; [exact Hin|].
  constructor; assumption.
Qed.

Lemma greatest_spec xs :
  xs <> [] ->
  exists m, Sql.greatest leb xs = Some m /\ In m xs /\
            Forall (fun y => leb y m = true) xs.
Proof.
  destruct xs as [|x t]; [congruence|]. intros _.
  destruct (fold_greatest t x) as [Hin [Hle Hall]].
  eexists. split; [reflexivity|]. split; [exact Hin|].
  constructor; assumption.
Qed.
End MinMaxFacts.

(** ** Groups ordered by their key *)

Section KeyedGroups.
Variable key : Expense.t -> string.

Lemma keyed_groups_grouped rows :
  grouped key String.eqb (keyed_groups key rows) rows.
Proof.
  pose proof (group_by_grouped key String.eqb String.eqb_eq rows)
    as [Hnd Hrows Hall].
  assert (P : Permutation (keyed_groups key rows) (Sql.group_by key String.eqb rows))
    by apply order_by_desc_perm.
  split.
  - apply Permutation_NoDup with (map fst (Sql.group_by key String.eqb rows));
      [|assumption].
    symmetry. now apply Permutation_map.
  - intros k g Hin. apply Hrows. now apply (Permutation_in _ P).
  - intros r Hr.
    apply Permutation_in with (map fst (Sql.group_by key String.eqb rows)).
    + symmetry. now apply Permutation_map.
    + now apply Hall.
Qed.

Lemma strictly_desc_of_nodup (l : list (string * list Expense.t)) :
  StronglySorted (desc fst Sql.text_leb) l -> NoDup (map fst l) ->
  StronglySorted (fun a b => String.ltb (fst b) (fst a) = true) l.
Proof.
  induction 1 as [|a l Hs IH Ha]; intros Hnd; [constructor|].
  inversion Hnd as [|? ? Hnotin Hnd']; subst.
  constructor; [now apply IH|].
  rewrite Forall_forall in Ha |- *. intros b Hb.
  apply text_leb_ltb; [now apply Ha|].
  intros Heq. apply Hnotin. rewrite <- Heq. now apply in_map.
Qed.

(** The keys come in strictly descending text order. *)
Lemma keyed_groups_sorted rows :
  StronglySorted (fun a b => String.ltb (fst b) (fst a) = true) (keyed_groups key rows).
Proof.
  apply strictly_desc_of_nodup.
  - apply order_by_desc_sorted; [apply text_leb_total | apply text_leb_trans].
  - apply keyed_groups_grouped.
Qed.
End KeyedGroups.

(** ** Weeks of the year *)

Lemma count_week_starts (a : Z) (n : nat) :
  Z.of_nat (List.length (filter (fun j => j mod 7 =? 0)
                           (map (fun i => a + Z.of_nat i) (seq 0 (S n)))))
  = (Z.of_nat n + 7 - (a + Z.of_nat n) mod 7) / 7.
Proof.
  induction n as [|n IH].
  - cbn [seq map filter Z.of_nat]. rewrite Z.add_0_r.
    destruct (Z.eqb_spec (a mod 7) 0) as [E|E]; cbn [List.length Z.of_nat];
      Z.to_euclidean_division_equations; lia.
  - rewrite seq_S, map_app, filter_app, length_app, Nat2Z.inj_add, IH.
    cbn [plus map filter].
    destruct (Z.eqb_spec ((a + Z.of_nat (S n)) mod 7) 0) as [E|E]; cbn [List.length];
      rewrite Nat2Z.inj_succ in *; Z.to_euclidean_division_equations; lia.
Qed.

Lemma day_of_year0_nonneg d : Py.valid_date d -> 0 <= Sqlite.day_of_year0 d.
Proof.
  destruct d as [y m dd].
  unfold Py.valid_date, Sqlite.day_of_year0, Sqlite.jd, Sqlite.julian_day.
  cbn [Py.year Py.month Py.day]. intros [Hy [Hm [Hd _]]].
  replace (1 <=? 2) with true by reflexivity. cbv zeta.
  destruct (Z.leb_spec m 2); Z.to_euclidean_division_equations; lia.
Qed.

Lemma week_of_year_mondays d :
  Py.valid_date d -> Sqlite.week_of_year d = week_starting monday d.
Proof.
  intros Hv. pose proof (day_of_year0_nonneg d Hv) as Hn.
  unfold week_starting, year_days_upto, monday.
  rewrite count_week_starts, Z2Nat.id by assumption.
  unfold Sqlite.week_of_year, Sqlite.weekday. do 3 f_equal.
  unfold Sqlite.day_of_year0. lia.
Qed.

(** ** The weekly and monthly breakdowns *)

Lemma keyed_groups_nonempty key rows k g :
  In (k, g) (keyed_groups key rows) -> g <> [].
Proof.
  intros Hin. destruct (keyed_groups_grouped key rows) as [_ H _].
  now apply H in Hin.
Qed.

Lemma by_date_weekly_ok rows :
  by_date_weekly rows = Ok (map weekly_row (keyed_groups week_key rows)).
Proof.
  unfold by_date_weekly. fold (keyed_groups week_key rows).
  apply for_each_map_ok. intros [w g] Hin.
  apply keyed_groups_nonempty in Hin.
  rewrite sum_amounts by assumption. reflexivity.
Qed.

Lemma get_stats_by_month_ok db :
  get_stats_by_month db = Ok (map monthly_row (keyed_groups month_key db)).
Proof.
  unfold get_stats_by_month. fold (keyed_groups month_key db).
  apply for_each_map_ok. intros [m g] Hin.
  apply keyed_groups_nonempty in Hin.
  rewrite sum_amounts, avg_amounts by assumption. reflexivity.
Qed.

Lemma get_stats_by_date_else sd ed g db :
  g <> "daily"%string ->
  get_stats_by_date sd ed (Some g) db
  = (stats <- by_date_weekly (filtered sd ed db) ;; Ok (map inr stats)).
Proof.
  intros Hg. unfold get_stats_by_date.
  destruct (String.eqb_spec g "daily"); [contradiction|reflexivity].
Qed.

Lemma get_stats_by_date_weekly_ok sd ed db :
  get_stats_by_date sd ed (Some "weekly"%string) db
  = Ok (map inr (map weekly_row (keyed_groups week_key (filtered sd ed db)))).
Proof.
  rewrite get_stats_by_date_else by discriminate.
  now rewrite by_date_weekly_ok.
Qed.

Lemma week_key_mondays x :
  Py.valid_date (Expense.date x) ->
  week_key x = week_key_starting monday (Expense.date x).
Proof.
  intros Hv. unfold week_key, Sqlite.strftime_Y_W, week_key_starting.
  now rewrite week_of_year_mondays.
Qed.

Lemma filtered_incl sd ed db x : In x (filtered sd ed db) -> In x db.
Proof. rewrite filtered_filter, filter_In. tauto. Qed.

(** * The claims *)

(** C1, as the code has it. For every expense of the filtered table, the
    weekly breakdown has the row of the bucket named YYYY-Wnn, where nn is
    the week of the year counted with weeks that start on Monday: week 0 is
    the days before the first Monday of the year and the number goes up on
    every Monday. The bucket holds the expenses of the same name. *)
Theorem weekly_buckets_monday_start sd ed db :
  Forall (fun x => Py.valid_date (Expense.date x)) db ->
  weekly_buckets_by (week_key_starting monday) sd ed db.
Proof.
  intros Hv. rewrite Forall_forall in Hv.
  exists (map inr (map weekly_row (keyed_groups week_key (filtered sd ed db)))).
  split; [apply get_stats_by_date_weekly_ok|].
  intros x Hx. apply in_map, in_map_iff.
  destruct (keyed_groups_grouped week_key (filtered sd ed db)) as [_ Hrows Hall].
  specialize (Hall x Hx). apply in_map_iff in Hall.
  destruct Hall as [[k g] [Hk Hin]]. simpl in Hk. subst k.
  exists (week_key x, g). split; [|assumption].
  unfold bucket_row. f_equal.
  rewrite <- week_key_mondays by (apply Hv; eapply filtered_incl; eassumption).
  f_equal. destruct (Hrows _ _ Hin) as [_ ->]. unfold rows_of.
  apply filter_ext_in. intros r Hr.
  now rewrite <- week_key_mondays by (apply Hv; eapply filtered_incl; eassumption).
Qed.

Lemma weekly_buckets_monday_start_witness :
  weekly_buckets_by (week_key_starting monday) None None scenario_categories.
Proof.
  apply weekly_buckets_monday_start.
  repeat constructor; vm_compute; repeat split; discriminate.
Defined.

(** C1, as stated, fails: the first of January 2023 is a Sunday, which a
    Sunday-start count puts in week 01, while the breakdown has it in
    2023-W00 and has no row named 2023-W01. *)
Lemma weekly_buckets_not_sunday_start :
  Py.valid_date sunday_2023_01_01 /\
  Sqlite.weekday sunday_2023_01_01 = sunday /\
  ~ weekly_buckets_by (week_key_starting sunday) None None
      [Expense.mk 1 10.00 "food" sunday_2023_01_01].
Proof.
  split; [vm_compute; repeat split; discriminate|]. split; [reflexivity|].
  intros [stats [Hs Hall]].
  specialize (Hall _ (or_introl eq_refl)).
  vm_compute in Hs. injection Hs as <-.
  destruct Hall as [H|[]]. vm_compute in H. discriminate.
Qed.

(** C2, as the code has it. Of two expenses dated Sunday 2024-12-29 and
    Monday 2024-12-30 the weekly breakdown makes two buckets, 2024-W52 with
    the first and 2024-W53 with the second; the two days are in different
    ISO weeks as well, a Monday being where both kinds of week begin. *)
Theorem year_end_pair_two_buckets (id1 id2 : Z) (a1 a2 : Q) (c1 c2 : string) :
  let e1 := Expense.mk id1 a1 c1 sunday_2024_12_29 in
  let e2 := Expense.mk id2 a2 c2 monday_2024_12_30 in
  get_stats_by_date None None (Some "weekly"%string) [e1; e2]
  = Ok [inr (weekly_row ("2024-W53"%string, [e2]));
        inr (weekly_row ("2024-W52"%string, [e1]))] /\
  week_key e1 <> week_key e2 /\
  ~ same_iso_week sunday_2024_12_29 monday_2024_12_30.
Proof.
  intros e1 e2. split; [|split].
  - rewrite get_stats_by_date_weekly_ok. reflexivity.
  - vm_compute. discriminate.
  - vm_compute. discriminate.
Qed.

(** C2, as stated, fails: the two days get different week keys but are not
    in the same ISO week. *)
Lemma year_end_pair_not_same_iso_week :
  ~ (Sqlite.strftime_Y_W sunday_2024_12_29 <> Sqlite.strftime_Y_W monday_2024_12_30 /\
     same_iso_week sunday_2024_12_29 monday_2024_12_30).
Proof.
  intros [_ H]. vm_compute in H. discriminate.
Qed.

(** C3, as the code has it. On the three expenses of the scenario the
    category breakdown returns food with total 30.00, count 2 and average
    15.00, then transport with total 5.00, count 1 and average 5.00: the
    sum 30.005 is half way between 30.00 and 30.01 and goes to the even
    one. *)
Theorem scenario_category_breakdown :
  get_stats_by_category None None scenario_categories
  = Ok [ CategoryStats.mk "food" 30.00 2 15.00;
         CategoryStats.mk "transport" 5.00 1 5.00 ].
Proof. vm_compute. reflexivity. Qed.

(** C3, as stated, fails: the result does not have 30.01 as the total of
    food. *)
Lemma scenario_food_total_not_30_01 :
  ~ returns_categories (get_stats_by_category None None scenario_categories)
      [ CategoryStats.mk "food" 30.01 2 15.00;
        CategoryStats.mk "transport" 5.00 1 5.00 ].
Proof.
  intros [stats [Hs H]]. vm_compute in Hs. injection Hs as <-.
  inversion H as [|? ? ? ? [_ [Ht _]] _]; subst.
  vm_compute in Ht. discriminate.
Qed.

(** C4. Whenever no expense passes the date filter, the overall summary
    returns the record of zeros as a normal result. The empty table and a
    range whose start is after its end are such cases. *)
Theorem total_of_nothing_is_zero sd ed db :
  filtered sd ed db = [] \/
  db = [] \/
  (exists s e, sd = Some s /\ ed = Some e /\ Py.date_lt e s) ->
  get_stats_total sd ed db = Ok (OverallStats.mk 0 0 0 0 0).
Proof.
  intros [H|[H|[s [e [Hs [He Hlt]]]]]]; apply get_stats_total_empty.
  - assumption.
  - subst db. apply filtered_nil.
  - subst sd ed. now apply filtered_inverted.
Qed.

Lemma total_of_nothing_is_zero_witness :
  get_stats_total (Some (Py.mkdate 2024 1 2)) (Some (Py.mkdate 2024 1 1))
    scenario_categories
  = Ok (OverallStats.mk 0 0 0 0 0).
Proof.
  apply total_of_nothing_is_zero.
  right; right. exists (Py.mkdate 2024 1 2), (Py.mkdate 2024 1 1).
  repeat split; reflexivity.
Defined.

(** C5. The date filter keeps the expenses, in table order, for which
    both bounds hold, a bound that is not given holding of every expense;
    with a start after the end nothing is kept and the endpoint returns
    the empty list as a normal result. *)
Theorem date_filter_inclusive sd ed db :
  filtered sd ed db = filter (in_range sd ed) db /\
  (forall x, In x (filtered sd ed db) <->
     In x db /\
     (sd = None \/ exists s, sd = Some s /\ Py.date_le s (Expense.date x)) /\
     (ed = None \/ exists e, ed = Some e /\ Py.date_le (Expense.date x) e)) /\
  (forall s e, Py.date_lt e s ->
     filtered (Some s) (Some e) db = [] /\
     get_stats_by_category (Some s) (Some e) db = Ok []).
Proof.
  split; [apply filtered_filter|]. split.
  - intros x. rewrite filtered_filter, filter_In, in_range_iff.
    split; intros [Hin [H1 H2]]; (split; [assumption|]); split.
    + destruct sd as [s|]; [right; exists s; auto | now left].
    + destruct ed as [e|]; [right; exists e; auto | now left].
    + intros s ->. destruct H1 as [H1|[s' [E H1]]]; [discriminate|congruence].
    + intros e ->. destruct H2 as [H2|[e' [E H2]]]; [discriminate|congruence].
  - intros s e Hlt.
    assert (E : filtered (Some s) (Some e) db = []) by now apply filtered_inverted.
    split; [assumption|].
    now rewrite get_stats_by_category_ok, E.
Qed.

Lemma date_filter_inclusive_witness :
  filtered (Some (Py.mkdate 2024 1 2)) (Some (Py.mkdate 2024 1 1)) scenario_categories = [] /\
  get_stats_by_category (Some (Py.mkdate 2024 1 2)) (Some (Py.mkdate 2024 1 1))
    scenario_categories = Ok [].
Proof.
  apply (date_filter_inclusive None None scenario_categories).
  reflexivity.
Defined.

(** C7. The counts of the rows of the category breakdown add up to the
    number of expenses of the table it is made from: the groups behind the
    rows have distinct categories, every expense of a group has the
    category of the group, and together the groups hold the expenses of
    the table, each as often as the table does. *)
Theorem category_counts_partition sd ed db :
  exists stats groups,
    get_stats_by_category sd ed db = Ok stats /\
    filtered None None db = db /\
    sum_counts stats = Z.of_nat (List.length (filtered sd ed db)) /\
    map CategoryStats.category stats = map fst groups /\
    map CategoryStats.count stats = map (fun cg => Z.of_nat (List.length (snd cg))) groups /\
    NoDup (map fst groups) /\
    Forall (fun cg => Forall (fun x => Expense.category x = fst cg) (snd cg)) groups /\
    Permutation (List.concat (map snd groups)) (filtered sd ed db).
Proof.
  exists (map category_row (category_groups (filtered sd ed db))),
         (category_groups (filtered sd ed db)).
  destruct (category_groups_grouped (filtered sd ed db)) as [Hnd Hrows Hall].
  assert (P : Permutation (List.concat (map snd (category_groups (filtered sd ed db))))
                (filtered sd ed db)).
  { rewrite <- (group_by_rows Expense.category String.eqb (filtered sd ed db)) at 2.
    apply Permutation_concat, Permutation_map, category_groups_perm. }
  repeat split.
  - apply get_stats_by_category_ok.
  - rewrite sum_counts_rows. now rewrite (Permutation_length P).
  - rewrite map_map. apply map_ext. now intros [c g].
  - rewrite map_map. apply map_ext. now intros [c g].
  - assumption.
  - apply Forall_forall. intros [c g] Hin. simpl.
    destruct (Hrows c g Hin) as [_ ->]. apply Forall_forall.
    intros x Hx. apply filter_In in Hx. now apply String.eqb_eq.
  - assumption.
Qed.

(** C8. The weekly breakdown has a row for the week key of every expense
    that passes the filter, no key having two rows, and in every row the
    start date is the earliest and the end date the latest of the dates of
    the expenses of its bucket, the expenses of the filtered table that
    bear the week key of the row, of which there is at least one. *)
Theorem weekly_bucket_dates sd ed db :
  exists stats,
    get_stats_by_date sd ed (Some "weekly"%string) db = Ok (map inr stats) /\
    (forall x, In x (filtered sd ed db) ->
       exists row, In row stats /\ WeeklyStats.week row = week_key x) /\
    NoDup (map WeeklyStats.week stats) /\
    forall row, In row stats ->
      let bucket :=
        filter (fun x => String.eqb (week_key x) (WeeklyStats.week row))
          (filtered sd ed db) in
      bucket <> [] /\
      exists first last,
        In first (dates bucket) /\
        Forall (fun dt => Py.date_le first dt) (dates bucket) /\
        In last (dates bucket) /\
        Forall (fun dt => Py.date_le dt last) (dates bucket) /\
        WeeklyStats.start_date row = Py.isoformat first /\
        WeeklyStats.end_date row = Py.isoformat last.
Proof.
  exists (map weekly_row (keyed_groups week_key (filtered sd ed db))).
  destruct (keyed_groups_grouped week_key (filtered sd ed db)) as [Hnd Hrows Hall].
  split; [apply get_stats_by_date_weekly_ok|]. split; [|split].
  - intros x Hx. specialize (Hall x Hx). apply in_map_iff in Hall.
    destruct Hall as [[w g] [Hw Hin]]. simpl in Hw. subst w.
    exists (weekly_row (week_key x, g)). split; [now apply in_map | reflexivity].
  - rewrite map_map.
    rewrite (map_ext _ fst) by now intros [w g]. assumption.
  - intros row Hrow bucket. apply in_map_iff in Hrow.
    destruct Hrow as [[w g] [Hw Hin]].
    destruct (Hrows w g Hin) as [Hne Hg].
    assert (Hb : bucket = g) by (subst row bucket; simpl; now rewrite Hg).
    assert (Hd : dates g <> []) by (destruct g; [congruence|discriminate]).
    destruct (least_spec Py.date_leb date_leb_total date_leb_trans (dates g) Hd)
      as [first [Hf [Hfin Hfall]]].
    destruct (greatest_spec Py.date_leb date_leb_total date_leb_trans (dates g) Hd)
      as [last [Hl [Hlin Hlall]]].
    rewrite Hb. split; [assumption|].
    exists first, last. subst row. simpl. rewrite Hf, Hl.
    repeat split; assumption.
Qed.

Lemma weekly_bucket_dates_witness :
  exists stats row,
    get_stats_by_date None None (Some "weekly"%string) scenario_categories
    = Ok (map inr stats) /\
    In row stats /\
    WeeklyStats.week row = "2024-W01"%string /\
    WeeklyStats.start_date row = "2024-01-01"%string /\
    WeeklyStats.end_date row = "2024-01-02"%string.
Proof.
  destruct (weekly_bucket_dates None None scenario_categories)
    as [stats [Hs [Hex [_ H]]]].
  destruct (Hex (Expense.mk 1 10.00 "food" (Py.mkdate 2024 1 1)) (or_introl eq_refl))
    as [row [Hrow Hweek]].
  change (week_key (Expense.mk 1 10.00 "food" (Py.mkdate 2024 1 1)))
    with "2024-W01"%string in Hweek.
  exists stats, row. split; [exact Hs|]. split; [exact Hrow|]. split; [exact Hweek|].
  destruct (H row Hrow) as [_ [first [last [Hfin [Hf [Hlin [Hl [Es Ee]]]]]]]].
  rewrite Hweek in Hfin, Hf, Hlin, Hl.
  change (dates (filter (fun x => String.eqb (week_key x) "2024-W01")
                   (filtered None None scenario_categories)))
    with [Py.mkdate 2024 1 1; Py.mkdate 2024 1 1; Py.mkdate 2024 1 2]
    in Hfin, Hf, Hlin, Hl.
  rewrite Es, Ee. split.
  - destruct Hfin as [E|[E|[E|[]]]]; rewrite <- E; try reflexivity.
    rewrite <- E in Hf. inversion Hf as [|? ? Hbad _]. discriminate Hbad.
  - destruct Hlin as [E|[E|[E|[]]]]; rewrite <- E; try reflexivity;
      rewrite <- E in Hl;
      inversion Hl as [|? ? _ Hl']; inversion Hl' as [|? ? _ Hl''];
      inversion Hl'' as [|? ? Hbad _]; discriminate Hbad.
Defined.

(** C10. A request without the grouping parameter is answered as one with
    grouping "daily", by the daily breakdown of the filtered table; any
    other value of the parameter is answered by the weekly one. *)
Theorem grouping_defaults_to_daily sd ed db :
  get_stats_by_date sd ed None db = get_stats_by_date sd ed (Some "daily"%string) db /\
  get_stats_by_date sd ed (Some "daily"%string) db
  = (stats <- by_date_daily (filtered sd ed db) ;; Ok (map inl stats)) /\
  forall g, g <> "daily"%string ->
    get_stats_by_date sd ed (Some g) db
    = (stats <- by_date_weekly (filtered sd ed db) ;; Ok (map inr stats)).
Proof.
  split; [reflexivity|]. split; [reflexivity|].
  intros g Hg. now apply get_stats_by_date_else.
Qed.

Lemma grouping_defaults_to_daily_witness :
  get_stats_by_date None None (Some "monthly"%string) scenario_categories
  = (stats <- by_date_weekly (filtered None None scenario_categories) ;;
     Ok (map inr stats)).
Proof.
  apply (grouping_defaults_to_daily None None scenario_categories).
  discriminate.
Defined.

(** * Further properties of the endpoints *)

(** ** Rounding and sums *)




Lemma round_half_even_Z (z : Z) : Py.round_half_even (inject_Z z) = z.
Proof.
  unfold Py.round_half_even. rewrite Qfloor_Z.
  destruct (Qcompare_spec (inject_Z z - inject_Z z) (1 # 2)) as [H|H|H];
    try reflexivity; exfalso; lra.
Qed.




(** ** The overall summary of a table that is not empty *)




(** ** The daily breakdown *)

Lemma date_eqb_eq a b : Py.date_eqb a b = true <-> a = b.
Proof.
  unfold Py.date_eqb. pose proof (date_compare_spec a b) as H.
  destruct (Py.date_compare a b); split; intro E; try discriminate; try assumption;
    try reflexivity; subst; lia.
Qed.

Lemma date_leb_ltb a b : Py.date_leb a b = true -> a <> b -> Py.date_ltb a b = true.
Proof.
  unfold Py.date_leb, Py.date_ltb. pose proof (date_compare_spec a b) as H.
  destruct (Py.date_compare a b); try reflexivity; try discriminate.
  intros _ Hne. contradiction.
Qed.

Lemma daily_groups_perm rows :
  Permutation (daily_groups rows) (Sql.group_by Expense.date Py.date_eqb rows).
Proof. apply order_by_desc_perm. Qed.

Lemma daily_groups_grouped rows :
  grouped Expense.date Py.date_eqb (daily_groups rows) rows.
Proof.
  pose proof (group_by_grouped Expense.date Py.date_eqb date_eqb_eq rows)
    as [Hnd Hrows Hall].
  pose proof (daily_groups_perm rows) as P.
  split.
  - apply Permutation_NoDup with (map fst (Sql.group_by Expense.date Py.date_eqb rows));
      [|assumption].
    symmetry. now apply Permutation_map.
  - intros k g Hin. apply Hrows. now apply (Permutation_in _ P).
  - intros r Hr.
    apply Permutation_in with (map fst (Sql.group_by Expense.date Py.date_eqb rows)).
    + symmetry. now apply Permutation_map.
    + now apply Hall.
Qed.

Lemma daily_groups_sorted rows :
  StronglySorted (fun a b => Py.date_lt (fst b) (fst a)) (daily_groups rows).
Proof.
  pose proof (order_by_desc_sorted fst Py.date_leb date_leb_total date_leb_trans
                (Sql.group_by Expense.date Py.date_eqb rows)) as Hs.
  fold (daily_groups rows) in Hs.
  destruct (daily_groups_grouped rows) as [Hnd _ _].
  induction Hs as [|a l Hs IH Ha]; [constructor|].
  inversion Hnd as [|? ? Hnotin Hnd']; subst.
  constructor; [now apply IH|].
  rewrite Forall_forall in Ha |- *. intros b Hb.
  apply date_leb_ltb; [now apply Ha|].
  intros Heq. apply Hnotin. rewrite <- Heq. now apply in_map.
Qed.

Lemma by_date_daily_ok rows :
  by_date_daily rows = Ok (map daily_row (daily_groups rows)).
Proof.
  unfold by_date_daily. fold (daily_groups rows).
  apply for_each_map_ok. intros [dt g] Hin.
  destruct (daily_groups_grouped rows) as [_ H _]. apply H in Hin.
  rewrite sum_amounts by tauto. reflexivity.
Qed.

Lemma get_stats_by_date_daily_ok sd ed db :
  get_stats_by_date sd ed (Some "daily"%string) db
  = Ok (map inl (map daily_row (daily_groups (filtered sd ed db)))).
Proof.
  unfold get_stats_by_date. cbn [String.eqb Ascii.eqb Bool.eqb].
  fold (filtered sd ed db). now rewrite by_date_daily_ok.
Qed.

(** ** Counts, empty results and the 500 response *)

Lemma add_up_sizes {K : Type} (gs : list (K * list Expense.t)) :
  add_up (map (fun g => Sql.count (snd g)) gs)
  = Z.of_nat (List.length (List.concat (map snd gs))).
Proof.
  unfold add_up, Sql.count.
  induction gs as [|[k g] gs IH]; simpl; [reflexivity|].
  rewrite IH, length_app. lia.
Qed.

Lemma keyed_groups_rows key rows :
  Permutation (List.concat (map snd (keyed_groups key rows))) rows.
Proof.
  rewrite <- (group_by_rows key String.eqb rows) at 2.
  apply Permutation_concat, Permutation_map, order_by_desc_perm.
Qed.

Lemma daily_groups_rows rows :
  Permutation (List.concat (map snd (daily_groups rows))) rows.
Proof.
  rewrite <- (group_by_rows Expense.date Py.date_eqb rows) at 2.
  apply Permutation_concat, Permutation_map, order_by_desc_perm.
Qed.

(** X4. The counts of the rows of the daily breakdown add up to the number
    of expenses that pass the filter, and so do the counts of the rows of
    the weekly breakdown: both put every such expense in one row. *)
Theorem by_date_counts sd ed db :
  exists daily weekly,
    get_stats_by_date sd ed (Some "daily"%string) db = Ok (map inl daily) /\
    get_stats_by_date sd ed (Some "weekly"%string) db = Ok (map inr weekly) /\
    add_up (map DailyStats.count daily) = Z.of_nat (List.length (filtered sd ed db)) /\
    add_up (map WeeklyStats.count weekly) = Z.of_nat (List.length (filtered sd ed db)).
Proof.
  exists (map daily_row (daily_groups (filtered sd ed db))),
         (map weekly_row (keyed_groups week_key (filtered sd ed db))).
  split; [apply get_stats_by_date_daily_ok|].
  split; [apply get_stats_by_date_weekly_ok|].
  split.
  - rewrite map_map.
    rewrite (map_ext _ (fun g => Sql.count (snd g))) by now intros [dt g].
    rewrite add_up_sizes. f_equal. apply Permutation_length, daily_groups_rows.
  - rewrite map_map.
    rewrite (map_ext _ (fun g => Sql.count (snd g))) by now intros [w g].
    rewrite add_up_sizes. f_equal. apply Permutation_length, keyed_groups_rows.
Qed.

(** X5. The counts of the rows of the monthly breakdown add up to the
    number of expenses of the whole table. *)
Theorem by_month_counts db :
  exists stats,
    get_stats_by_month db = Ok stats /\
    add_up (map MonthlyStats.count stats) = Z.of_nat (List.length db).
Proof.
  exists (map monthly_row (keyed_groups month_key db)).
  split; [apply get_stats_by_month_ok|].
  rewrite map_map.
  rewrite (map_ext _ (fun g => Sql.count (snd g))) by now intros [m g].
  rewrite add_up_sizes. f_equal. apply Permutation_length, keyed_groups_rows.
Qed.

Lemma grouped_nil_iff {R K : Type} (key : R -> K) (eqb : K -> K -> bool)
    (gs : list (K * list R)) (rows : list R) :
  grouped key eqb gs rows -> (gs = [] <-> rows = []).
Proof.
  intros [_ Hrows Hall]. split.
  - intros ->. destruct rows as [|r rows]; [reflexivity|].
    destruct (Hall r (or_introl eq_refl)).
  - intros ->. destruct gs as [|[k g] gs]; [reflexivity|].
    destruct (Hrows k g (or_introl eq_refl)) as [Hne Hg].
    unfold rows_of in Hg. simpl in Hg. contradiction.
Qed.

Lemma map_nil_iff {A B : Type} (f : A -> B) (l : list A) : map f l = [] <-> l = [].
Proof. destruct l; simpl; split; intros; congruence. Qed.

Lemma Ok_inj {A : Type} (a b : A) : Ok a = Ok b <-> a = b.
Proof. split; [now intros [=] | now intros ->]. Qed.

(** X6. An endpoint that returns a list returns the empty list exactly
    when it has no expense to work on: none passes the date filter, for
    the category and the date breakdowns in either grouping, and the table
    is empty, for the monthly breakdown. *)
Theorem empty_result_iff sd ed grouping db :
  (get_stats_by_category sd ed db = Ok [] <-> filtered sd ed db = []) /\
  (get_stats_by_date sd ed grouping db = Ok [] <-> filtered sd ed db = []) /\
  (get_stats_by_month db = Ok [] <-> db = []).
Proof.
  split; [|split].
  - rewrite get_stats_by_category_ok, Ok_inj, map_nil_iff.
    apply grouped_nil_iff with (key := Expense.category) (eqb := String.eqb).
    apply category_groups_grouped.
  - assert (D : get_stats_by_date sd ed grouping db
                = get_stats_by_date sd ed (Some "daily"%string) db \/
                get_stats_by_date sd ed grouping db
                = get_stats_by_date sd ed (Some "weekly"%string) db).
    { destruct grouping as [g|]; [|now left].
      destruct (String.eqb_spec g "daily") as [->|Hg]; [now left|right].
      now rewrite !get_stats_by_date_else by (assumption || discriminate). }
    destruct D as [-> | ->].
    + rewrite get_stats_by_date_daily_ok, Ok_inj, !map_nil_iff.
      apply grouped_nil_iff with (key := Expense.date) (eqb := Py.date_eqb).
      apply daily_groups_grouped.
    + rewrite get_stats_by_date_weekly_ok, Ok_inj, !map_nil_iff.
      apply grouped_nil_iff with (key := week_key) (eqb := String.eqb).
      apply keyed_groups_grouped.
  - rewrite get_stats_by_month_ok, Ok_inj, map_nil_iff.
    apply grouped_nil_iff with (key := month_key) (eqb := String.eqb).
    apply keyed_groups_grouped.
Qed.

Lemma empty_result_iff_witness :
  get_stats_by_date (Some (Py.mkdate 2024 1 3)) None (Some "weekly"%string)
    scenario_categories = Ok [] /\
  get_stats_by_month [] = Ok [].
Proof.
  split.
  - apply (empty_result_iff (Some (Py.mkdate 2024 1 3)) None (Some "weekly"%string)
             scenario_categories). reflexivity.
  - apply (empty_result_iff None None None []). reflexivity.
Defined.

(** X7. Filtering by dates a table that is already filtered by the same
    dates changes nothing, and two date filters give the same table in
    either order. *)
Theorem date_filter_laws sd ed sd' ed' db :
  filtered sd ed (filtered sd ed db) = filtered sd ed db /\
  filtered sd ed (filtered sd' ed' db) = filtered sd' ed' (filtered sd ed db).
Proof.
  rewrite !filtered_filter, !filter_twice. split.
  - apply filter_ext. intros x. now destruct (in_range sd ed x).
  - apply filter_ext. intros x. apply andb_comm.
Qed.


(** ** Keys and labels as texts *)

Lemma forall_upto (P : Z -> bool) (n : Z) :
  forallb P (map Z.of_nat (seq 0 (Z.to_nat n))) = true ->
  forall z, 0 <= z < n -> P z = true.
Proof.
  intros H z Hz. rewrite forallb_forall in H. apply H.
  apply in_map_iff. exists (Z.to_nat z). split; [lia|].
  apply in_seq. lia.
Qed.

Lemma zero_pad_2 n : 0 <= n <= 99 -> Py.zero_pad 2 n = two_digits n.
Proof.
  intros Hn. apply String.eqb_eq.
  apply (forall_upto (fun z => String.eqb (Py.zero_pad 2 z) (two_digits z)) 100);
    [vm_compute; reflexivity | lia].
Qed.

Lemma zero_pad_4 n : 0 <= n <= 9999 -> Py.zero_pad 4 n = four_digits n.
Proof.
  intros Hn. apply String.eqb_eq.
  apply (forall_upto (fun z => String.eqb (Py.zero_pad 4 z) (four_digits z)) 10000);
    [vm_compute; reflexivity | lia].
Qed.

Lemma digit_compare a b :
  0 <= a <= 9 -> 0 <= b <= 9 -> Ascii.compare (digit a) (digit b) = (a ?= b).
Proof.
  intros Ha Hb.
  assert (Ea : a = 0 \/ a = 1 \/ a = 2 \/ a = 3 \/ a = 4 \/ a = 5 \/ a = 6 \/
               a = 7 \/ a = 8 \/ a = 9) by lia.
  assert (Eb : b = 0 \/ b = 1 \/ b = 2 \/ b = 3 \/ b = 4 \/ b = 5 \/ b = 6 \/
               b = 7 \/ b = 8 \/ b = 9) by lia.
  repeat (destruct Ea as [->|Ea]); try subst a;
    repeat (destruct Eb as [->|Eb]); try subst b; reflexivity.
Qed.

Lemma compare_lex (c : comparison) (x y : Z) :
  (c = Eq -> x = y) -> (c = Lt -> x < y) -> (c = Gt -> y < x) -> c = (x ?= y).
Proof.
  intros He Hl Hg. symmetry. destruct c.
  - apply Z.compare_eq_iff. auto.
  - apply Z.compare_lt_iff. auto.
  - apply Z.compare_gt_iff. auto.
Qed.

Lemma two_digits_compare a b :
  0 <= a <= 99 -> 0 <= b <= 99 ->
  String.compare (two_digits a) (two_digits b) = (a ?= b).
Proof.
  intros Ha Hb. unfold two_digits. cbn [String.compare].
  rewrite !digit_compare by (Z.to_euclidean_division_equations; lia).
  destruct (Z.compare_spec (a / 10) (b / 10));
    destruct (Z.compare_spec (a mod 10) (b mod 10));
    apply compare_lex; intros; try discriminate;
    Z.to_euclidean_division_equations; lia.
Qed.

Lemma four_digits_compare a b :
  0 <= a <= 9999 -> 0 <= b <= 9999 ->
  String.compare (four_digits a) (four_digits b) = (a ?= b).
Proof.
  intros Ha Hb. unfold four_digits. cbn [String.compare].
  rewrite !digit_compare by (Z.to_euclidean_division_equations; lia).
  destruct (Z.compare_spec (a / 1000) (b / 1000));
    destruct (Z.compare_spec (a / 100 mod 10) (b / 100 mod 10));
    destruct (Z.compare_spec (a / 10 mod 10) (b / 10 mod 10));
    destruct (Z.compare_spec (a mod 10) (b mod 10));
    apply compare_lex; intros; try discriminate;
    Z.to_euclidean_division_equations; lia.
Qed.

Lemma compare_app s1 : forall s2 t1 t2,
  String.length s1 = String.length s2 ->
  String.compare (s1 ++ t1) (s2 ++ t2)
  = match String.compare s1 s2 with Eq => String.compare t1 t2 | c => c end.
Proof.
  induction s1 as [|c1 s1 IH]; intros [|c2 s2] t1 t2; simpl; try discriminate.
  - reflexivity.
  - intros [= H]. destruct (Ascii.compare c1 c2); try reflexivity. now apply IH.
Qed.

Lemma compare_refl s : String.compare s s = Eq.
Proof.
  induction s as [|c s IH]; simpl; [reflexivity|].
  unfold Ascii.compare. now rewrite N.compare_refl.
Qed.

Lemma compare_Eq_iff s t : String.compare s t = Eq <-> s = t.
Proof.
  split; [apply String.compare_eq_iff | intros ->; apply compare_refl].
Qed.

Lemma days_in_month_le y m : Py.days_in_month y m <= 31.
Proof.
  unfold Py.days_in_month.
  destruct (m =? 2); [destruct (Py.is_leap y); lia|].
  destruct ((m =? 4) || (m =? 6) || (m =? 9) || (m =? 11))%bool; lia.
Qed.

Lemma day_of_year0_le d : Py.valid_date d -> Sqlite.day_of_year0 d <= 365.
Proof.
  destruct d as [y m dd].
  unfold Py.valid_date, Sqlite.day_of_year0, Sqlite.jd, Sqlite.julian_day.
  cbn [Py.year Py.month Py.day]. intros [Hy [Hm [_ Hd]]].
  pose proof (days_in_month_le y m) as H31.
  replace (1 <=? 2) with true by reflexivity. cbv zeta.
  destruct (Z.leb_spec m 2); Z.to_euclidean_division_equations; lia.
Qed.

Lemma week_of_year_range d : Py.valid_date d -> 0 <= Sqlite.week_of_year d <= 53.
Proof.
  intros Hv. pose proof (day_of_year0_nonneg d Hv). pose proof (day_of_year0_le d Hv).
  unfold Sqlite.week_of_year, Sqlite.weekday.
  Z.to_euclidean_division_equations; lia.
Qed.

Lemma strftime_Y_m_digits d :
  Py.valid_date d ->
  Sqlite.strftime_Y_m d
  = (four_digits (Py.year d) ++ "-" ++ two_digits (Py.month d))%string.
Proof.
  intros [Hy [Hm _]]. unfold Sqlite.strftime_Y_m.
  now rewrite zero_pad_4, zero_pad_2 by lia.
Qed.

Lemma strftime_Y_W_digits d :
  Py.valid_date d ->
  Sqlite.strftime_Y_W d
  = (four_digits (Py.year d) ++ "-W" ++ two_digits (Sqlite.week_of_year d))%string.
Proof.
  intros Hv. pose proof (week_of_year_range d Hv). destruct Hv as [Hy _].
  unfold Sqlite.strftime_Y_W.
  now rewrite zero_pad_4, zero_pad_2 by lia.
Qed.

Lemma isoformat_digits d :
  Py.valid_date d ->
  Py.isoformat d
  = (four_digits (Py.year d) ++ "-" ++ two_digits (Py.month d) ++ "-"
     ++ two_digits (Py.day d))%string.
Proof.
  intros [Hy [Hm Hd]]. pose proof (days_in_month_le (Py.year d) (Py.month d)).
  unfold Py.isoformat.
  now rewrite zero_pad_4, !zero_pad_2 by lia.
Qed.

Lemma strftime_Y_m_compare a b :
  Py.valid_date a -> Py.valid_date b ->
  String.compare (Sqlite.strftime_Y_m a) (Sqlite.strftime_Y_m b)
  = match Py.year a ?= Py.year b with
    | Eq => Py.month a ?= Py.month b
    | c => c
    end.
Proof.
  intros Ha Hb. rewrite !strftime_Y_m_digits by assumption.
  destruct Ha as [Hya [Hma _]], Hb as [Hyb [Hmb _]].
  rewrite compare_app by reflexivity.
  rewrite four_digits_compare by lia.
  destruct (Py.year a ?= Py.year b); try reflexivity.
  rewrite (compare_app "-" "-") by reflexivity.
  cbn [String.compare Ascii.compare]. 
  change (String.compare "-" "-") with Eq. cbv iota.
  apply two_digits_compare; lia.
Qed.

Lemma strftime_Y_W_compare a b :
  Py.valid_date a -> Py.valid_date b ->
  String.compare (Sqlite.strftime_Y_W a) (Sqlite.strftime_Y_W b)
  = match Py.year a ?= Py.year b with
    | Eq => Sqlite.week_of_year a ?= Sqlite.week_of_year b
    | c => c
    end.
Proof.
  intros Ha Hb. rewrite !strftime_Y_W_digits by assumption.
  pose proof (week_of_year_range a Ha). pose proof (week_of_year_range b Hb).
  destruct Ha as [Hya _], Hb as [Hyb _].
  rewrite compare_app by reflexivity.
  rewrite four_digits_compare by lia.
  destruct (Py.year a ?= Py.year b); try reflexivity.
  rewrite (compare_app "-W" "-W") by reflexivity.
  change (String.compare "-W" "-W") with Eq. cbv iota.
  apply two_digits_compare; lia.
Qed.

Lemma isoformat_compare a b :
  Py.valid_date a -> Py.valid_date b ->
  String.compare (Py.isoformat a) (Py.isoformat b) = Py.date_compare a b.
Proof.
  intros Ha Hb. rewrite !isoformat_digits by assumption.
  pose proof (days_in_month_le (Py.year a) (Py.month a)).
  pose proof (days_in_month_le (Py.year b) (Py.month b)).
  destruct Ha as [Hya [Hma Hda]], Hb as [Hyb [Hmb Hdb]].
  unfold Py.date_compare.
  rewrite compare_app by reflexivity.
  rewrite four_digits_compare by lia.
  destruct (Py.year a ?= Py.year b); try reflexivity.
  rewrite (compare_app "-" "-") by reflexivity.
  change (String.compare "-" "-") with Eq. cbv iota.
  rewrite compare_app by reflexivity.
  rewrite two_digits_compare by lia.
  destruct (Py.month a ?= Py.month b); try reflexivity.
  rewrite (compare_app "-" "-") by reflexivity.
  change (String.compare "-" "-") with Eq. cbv iota.
  apply two_digits_compare; lia.
Qed.

Lemma ltb_compare s t : String.ltb s t = true <-> String.compare s t = Lt.
Proof. unfold String.ltb. destruct (String.compare s t); split; congruence. Qed.

Lemma same_week_iff a b :
  Py.year a = Py.year b ->
  (Sqlite.week_of_year a = Sqlite.week_of_year b <-> same_iso_week a b).
Proof.
  intros Hy. unfold same_iso_week, iso_week_monday, Sqlite.week_of_year,
    Sqlite.day_of_year0, Sqlite.weekday. rewrite Hy.
  split; intros H; Z.to_euclidean_division_equations; lia.
Qed.

Lemma same_iso_week_span a b :
  same_iso_week a b -> -6 <= Sqlite.jd a - Sqlite.jd b <= 6.
Proof.
  unfold same_iso_week, iso_week_monday, Sqlite.weekday. intros H.
  Z.to_euclidean_division_equations; lia.
Qed.

Lemma StronglySorted_weaken {A : Type} (R R' : A -> A -> Prop) (l : list A) :
  (forall a b, In a l -> In b l -> R a b -> R' a b) ->
  StronglySorted R l -> StronglySorted R' l.
Proof.
  intros H Hs. induction Hs as [|a l Hs IH Ha]; [constructor|].
  constructor.
  - apply IH. intros x y Hx Hy. apply H; now right.
  - rewrite Forall_forall in Ha |- *. intros b Hb.
    apply H; [now left | now right | now apply Ha].
Qed.

Section KeyedGroupsMembers.
Variable key : Expense.t -> string.

Lemma keyed_groups_member rows k g x :
  In (k, g) (keyed_groups key rows) -> In x g -> key x = k /\ In x rows.
Proof.
  intros Hin Hx. destruct (keyed_groups_grouped key rows) as [_ Hrows _].
  destruct (Hrows k g Hin) as [_ ->]. apply filter_In in Hx.
  destruct Hx as [Hx E]. apply String.eqb_eq in E. tauto.
Qed.

Lemma keyed_groups_same rows x y :
  In x rows -> In y rows ->
  ((exists k g, In (k, g) (keyed_groups key rows) /\ In x g /\ In y g)
   <-> key x = key y).
Proof.
  intros Hx Hy. split.
  - intros [k [g [Hin [Hxg Hyg]]]].
    destruct (keyed_groups_member rows k g x Hin Hxg) as [-> _].
    destruct (keyed_groups_member rows _ g y Hin Hyg) as [E _]. now symmetry.
  - intros E. destruct (keyed_groups_grouped key rows) as [_ Hrows Hall].
    specialize (Hall x Hx). apply in_map_iff in Hall.
    destruct Hall as [[k g] [Hk Hin]]. simpl in Hk. subst k.
    exists (key x), g. split; [assumption|].
    destruct (Hrows _ _ Hin) as [_ ->]. unfold rows_of.
    split; apply filter_In; split; try assumption; apply String.eqb_eq; congruence.
Qed.

Lemma keyed_groups_order rows :
  StronglySorted
    (fun a b => forall x y, In x (snd a) -> In y (snd b) ->
                            String.compare (key y) (key x) = Lt)
    (keyed_groups key rows).
Proof.
  apply StronglySorted_weaken with (2 := keyed_groups_sorted key rows).
  intros [ka ga] [kb gb] Ha Hb Hlt x y Hx Hy. simpl in *.
  destruct (keyed_groups_member rows ka ga x Ha Hx) as [-> _].
  destruct (keyed_groups_member rows kb gb y Hb Hy) as [-> _].
  now apply ltb_compare.
Qed.
End KeyedGroupsMembers.

(** X9. The week key of a valid date is the year in four digits, "-W" and
    the week number in two digits, eight characters in all, and the week
    number is between 0 and 53. *)
Theorem week_key_shape d :
  Py.valid_date d ->
  0 <= Sqlite.week_of_year d <= 53 /\
  Sqlite.strftime_Y_W d
  = (four_digits (Py.year d) ++ "-W" ++ two_digits (Sqlite.week_of_year d))%string /\
  String.length (Sqlite.strftime_Y_W d) = 8%nat.
Proof.
  intros Hv. split; [now apply week_of_year_range|].
  rewrite strftime_Y_W_digits by assumption. split; reflexivity.
Qed.

Lemma week_key_shape_witness :
  0 <= Sqlite.week_of_year monday_2024_12_30 <= 53 /\
  Sqlite.strftime_Y_W monday_2024_12_30
  = (four_digits 2024 ++ "-W" ++ two_digits (Sqlite.week_of_year monday_2024_12_30))%string /\
  String.length (Sqlite.strftime_Y_W monday_2024_12_30) = 8%nat.
Proof.
  apply (week_key_shape monday_2024_12_30).
  vm_compute; repeat split; discriminate.
Defined.

(** X10. Of a table of valid dates the weekly breakdown puts two expenses
    that pass the filter in the same row exactly when they are of the same
    year and of the same ISO week, so the dates of a row are within six
    days of each other; and the rows come latest week first: the expenses
    of a row are of a later year, or of the same year and a later week,
    than those of the rows after it. *)
Theorem weekly_rows_are_weeks sd ed db :
  Forall (fun x => Py.valid_date (Expense.date x)) db ->
  exists groups : list (string * list Expense.t),
    get_stats_by_date sd ed (Some "weekly"%string) db
    = Ok (map inr (map weekly_row groups)) /\
    (forall x y, In x (filtered sd ed db) -> In y (filtered sd ed db) ->
       ((exists w g, In (w, g) groups /\ In x g /\ In y g) <->
        Py.year (Expense.date x) = Py.year (Expense.date y) /\
        same_iso_week (Expense.date x) (Expense.date y))) /\
    (forall w g x y, In (w, g) groups -> In x g -> In y g ->
       -6 <= Sqlite.jd (Expense.date x) - Sqlite.jd (Expense.date y) <= 6) /\
    StronglySorted
      (fun a b => forall x y, In x (snd a) -> In y (snd b) ->
                              week_before (Expense.date y) (Expense.date x))
      groups.
Proof.
  intros Hv. rewrite Forall_forall in Hv.
  assert (Hvf : forall x, In x (filtered sd ed db) -> Py.valid_date (Expense.date x))
    by (intros x Hx; apply Hv; eapply filtered_incl; eassumption).
  assert (Hsame : forall x y,
            In x (filtered sd ed db) -> In y (filtered sd ed db) ->
            (week_key x = week_key y <->
             Py.year (Expense.date x) = Py.year (Expense.date y) /\
             same_iso_week (Expense.date x) (Expense.date y))).
  { intros x y Hx Hy. rewrite <- compare_Eq_iff. unfold week_key.
    rewrite strftime_Y_W_compare by auto.
    destruct (Z.compare_spec (Py.year (Expense.date x)) (Py.year (Expense.date y)))
      as [E|E|E].
    - rewrite Z.compare_eq_iff, (same_week_iff _ _ E). tauto.
    - split; [discriminate | intros [E' _]; lia].
    - split; [discriminate | intros [E' _]; lia]. }
  exists (keyed_groups week_key (filtered sd ed db)).
  split; [apply get_stats_by_date_weekly_ok|]. split; [|split].
  - intros x y Hx Hy. rewrite keyed_groups_same by assumption. now apply Hsame.
  - intros w g x y Hin Hx Hy.
    destruct (keyed_groups_member week_key _ w g x Hin Hx) as [Ex Hxr].
    destruct (keyed_groups_member week_key _ w g y Hin Hy) as [Ey Hyr].
    apply same_iso_week_span. apply (Hsame x y Hxr Hyr). congruence.
  - apply StronglySorted_weaken with (2 := keyed_groups_order week_key (filtered sd ed db)).
    intros [ka ga] [kb gb] Ha Hb H x y Hx Hy. simpl in *.
    specialize (H x y Hx Hy).
    destruct (keyed_groups_member week_key _ ka ga x Ha Hx) as [_ Hxr].
    destruct (keyed_groups_member week_key _ kb gb y Hb Hy) as [_ Hyr].
    unfold week_key in H. rewrite strftime_Y_W_compare in H by auto.
    unfold week_before.
    destruct (Z.compare_spec (Py.year (Expense.date y)) (Py.year (Expense.date x)));
      try discriminate; [right | left]; try assumption.
    split; [assumption|]. now apply Z.compare_lt_iff.
Qed.

Lemma weekly_rows_are_weeks_witness :
  exists groups : list (string * list Expense.t),
    get_stats_by_date None None (Some "weekly"%string) scenario_categories
    = Ok (map inr (map weekly_row groups)) /\
    exists w g, In (w, g) groups /\
      In (Expense.mk 1 10.00 "food" (Py.mkdate 2024 1 1)) g /\
      In (Expense.mk 3 5.00 "transport" (Py.mkdate 2024 1 2)) g.
Proof.
  destruct (weekly_rows_are_weeks None None scenario_categories) as [groups [Hs [Hsame _]]].
  - repeat constructor; vm_compute; repeat split; discriminate.
  - exists groups. split; [exact Hs|].
    apply Hsame.
    + simpl. left. reflexivity.
    + simpl. right. right. left. reflexivity.
    + split; reflexivity.
Defined.

(** X11. Of a table of valid dates the monthly breakdown puts two expenses
    in the same row exactly when they are of the same year and month, and
    the rows come latest month first. *)
Theorem monthly_rows_are_months db :
  Forall (fun x => Py.valid_date (Expense.date x)) db ->
  exists groups : list (string * list Expense.t),
    get_stats_by_month db = Ok (map monthly_row groups) /\
    (forall x y, In x db -> In y db ->
       ((exists m g, In (m, g) groups /\ In x g /\ In y g) <->
        Py.year (Expense.date x) = Py.year (Expense.date y) /\
        Py.month (Expense.date x) = Py.month (Expense.date y))) /\
    StronglySorted
      (fun a b => forall x y, In x (snd a) -> In y (snd b) ->
                              month_before (Expense.date y) (Expense.date x))
      groups.
Proof.
  intros Hv. rewrite Forall_forall in Hv.
  exists (keyed_groups month_key db).
  split; [apply get_stats_by_month_ok|]. split.
  - intros x y Hx Hy. rewrite keyed_groups_same by assumption.
    rewrite <- compare_Eq_iff. unfold month_key.
    rewrite strftime_Y_m_compare by auto.
    destruct (Z.compare_spec (Py.year (Expense.date x)) (Py.year (Expense.date y)))
      as [E|E|E].
    + rewrite Z.compare_eq_iff. tauto.
    + split; [discriminate | intros [E' _]; lia].
    + split; [discriminate | intros [E' _]; lia].
  - apply StronglySorted_weaken with (2 := keyed_groups_order month_key db).
    intros [ka ga] [kb gb] Ha Hb H x y Hx Hy. simpl in *.
    specialize (H x y Hx Hy).
    destruct (keyed_groups_member month_key _ ka ga x Ha Hx) as [_ Hxr].
    destruct (keyed_groups_member month_key _ kb gb y Hb Hy) as [_ Hyr].
    unfold month_key in H. rewrite strftime_Y_m_compare in H by auto.
    unfold month_before.
    destruct (Z.compare_spec (Py.year (Expense.date y)) (Py.year (Expense.date x)));
      try discriminate; [right | left]; try assumption.
    split; [assumption|]. now apply Z.compare_lt_iff.
Qed.

Lemma monthly_rows_are_months_witness :
  exists groups : list (string * list Expense.t),
    get_stats_by_month scenario_categories = Ok (map monthly_row groups) /\
    exists m g, In (m, g) groups /\
      In (Expense.mk 1 10.00 "food" (Py.mkdate 2024 1 1)) g /\
      In (Expense.mk 3 5.00 "transport" (Py.mkdate 2024 1 2)) g.
Proof.
  destruct (monthly_rows_are_months scenario_categories) as [groups [Hs [Hsame _]]].
  - repeat constructor; vm_compute; repeat split; discriminate.
  - exists groups. split; [exact Hs|].
    apply Hsame.
    + simpl. left. reflexivity.
    + simpl. right. right. left. reflexivity.
    + split; reflexivity.
Defined.

(** X12. The YYYY-MM-DD texts of two valid dates compare, character by
    character, the way the dates do; so of a table of valid dates the
    daily breakdown has rows whose date labels are in strictly descending
    text order, no label occurring twice. *)
Theorem daily_labels_descend sd ed db :
  Forall (fun x => Py.valid_date (Expense.date x)) db ->
  (forall a b, Py.valid_date a -> Py.valid_date b ->
     String.compare (Py.isoformat a) (Py.isoformat b) = Py.date_compare a b) /\
  exists rows,
    get_stats_by_date sd ed (Some "daily"%string) db = Ok (map inl rows) /\
    StronglySorted
      (fun r r' => String.ltb (DailyStats.date r') (DailyStats.date r) = true) rows.
Proof.
  intros Hv. rewrite Forall_forall in Hv.
  split; [intros; now apply isoformat_compare|].
  exists (map daily_row (daily_groups (filtered sd ed db))).
  split; [apply get_stats_by_date_daily_ok|].
  pose proof (daily_groups_sorted (filtered sd ed db)) as Hs.
  destruct (daily_groups_grouped (filtered sd ed db)) as [_ Hrows _].
  assert (Hval : Forall (fun dg => Py.valid_date (fst dg)) (daily_groups (filtered sd ed db))).
  { apply Forall_forall. intros [dt g] Hin. simpl.
    destruct (Hrows dt g Hin) as [Hne Hg].
    destruct g as [|x g]; [congruence|].
    assert (Hx : In x (x :: g)) by now left.
    rewrite Hg in Hx. apply filter_In in Hx. destruct Hx as [Hx E].
    apply date_eqb_eq in E. rewrite <- E. apply Hv.
    eapply filtered_incl; eassumption. }
  induction Hs as [|a l Hs IH Ha]; [constructor|].
  inversion Hval as [|? ? Hva Hvl]; subst.
  simpl. constructor.
  - apply IH; [|assumption]. intros k g Hin. apply Hrows. now right.
  - rewrite Forall_forall in Ha, Hvl |- *. intros r Hr.
    apply in_map_iff in Hr. destruct Hr as [[dt g] [<- Hin]].
    specialize (Ha _ Hin). specialize (Hvl _ Hin).
    destruct a as [da ga]. simpl in *.
    apply ltb_compare. rewrite isoformat_compare by assumption.
    unfold Py.date_lt, Py.date_ltb in Ha.
    destruct (Py.date_compare dt da); congruence.
Qed.

Lemma daily_labels_descend_witness :
  String.compare (Py.isoformat (Py.mkdate 2024 1 1)) (Py.isoformat (Py.mkdate 2024 1 2))
  = Py.date_compare (Py.mkdate 2024 1 1) (Py.mkdate 2024 1 2).
Proof.
  apply (daily_labels_descend None None scenario_categories).
  - repeat constructor; vm_compute; repeat split; discriminate.
  - vm_compute; repeat split; discriminate.
  - vm_compute; repeat split; discriminate.
Defined.

(** ** Results and the order of the rows of the table *)



Section SortedGroups.
Context {K : Type}.
Variable key : Expense.t -> K.
Variable eqb : K -> K -> bool.
Variable leb : K -> K -> bool.
Hypothesis eqb_eq : forall a b, eqb a b = true <-> a = b.
Hypothesis leb_total : forall a b, leb a b = true \/ leb b a = true.
Hypothesis leb_trans : forall a b c, leb a b = true -> leb b c = true -> leb a c = true.
Hypothesis leb_antisym : forall a b, leb a b = true -> leb b a = true -> a = b.

Local Abbreviation groups_of rows :=
  (Sql.order_by_desc fst leb (Sql.group_by key eqb rows)).






End SortedGroups.























(** ** Dates of the rows and the date filter *)

Lemma filtered_in_range sd ed db x :
  In x (filtered sd ed db) ->
  (forall s, sd = Some s -> Py.date_le s (Expense.date x)) /\
  (forall e, ed = Some e -> Py.date_le (Expense.date x) e).
Proof.
  rewrite filtered_filter, filter_In, in_range_iff. tauto.
Qed.

(** X17. The dates that the date breakdown reports are within the bounds
    of the request: the date of a daily row, and the start and end date of
    a weekly row, are dates of expenses that pass the filter, not before
    the start date and not after the end date when these are given; and
    the start date of a weekly row is not after its end date. *)
Theorem by_date_rows_in_range sd ed db :
  exists daily weekly,
    get_stats_by_date sd ed (Some "daily"%string) db = Ok (map inl daily) /\
    get_stats_by_date sd ed (Some "weekly"%string) db = Ok (map inr weekly) /\
    (forall r, In r daily ->
       exists x, In x (filtered sd ed db) /\
         DailyStats.date r = Py.isoformat (Expense.date x) /\
         (forall s, sd = Some s -> Py.date_le s (Expense.date x)) /\
         (forall e, ed = Some e -> Py.date_le (Expense.date x) e)) /\
    (forall r, In r weekly ->
       exists x y, In x (filtered sd ed db) /\ In y (filtered sd ed db) /\
         WeeklyStats.start_date r = Py.isoformat (Expense.date x) /\
         WeeklyStats.end_date r = Py.isoformat (Expense.date y) /\
         Py.date_le (Expense.date x) (Expense.date y) /\
         (forall s, sd = Some s -> Py.date_le s (Expense.date x)) /\
         (forall e, ed = Some e -> Py.date_le (Expense.date y) e)).
Proof.
  exists (map daily_row (daily_groups (filtered sd ed db))),
         (map weekly_row (keyed_groups week_key (filtered sd ed db))).
  split; [apply get_stats_by_date_daily_ok|].
  split; [apply get_stats_by_date_weekly_ok|]. split.
  - intros r Hr. apply in_map_iff in Hr. destruct Hr as [[dt g] [<- Hin]].
    destruct (daily_groups_grouped (filtered sd ed db)) as [_ Hrows _].
    destruct (Hrows dt g Hin) as [Hne Hg].
    destruct g as [|x g]; [congruence|].
    assert (Hx : In x (x :: g)) by now left.
    rewrite Hg in Hx. apply filter_In in Hx. destruct Hx as [Hx E].
    apply date_eqb_eq in E. exists x. split; [assumption|].
    split; [simpl; now rewrite E|]. now apply (filtered_in_range sd ed db).
  - intros r Hr. apply in_map_iff in Hr. destruct Hr as [[w g] [<- Hin]].
    destruct (keyed_groups_grouped week_key (filtered sd ed db)) as [_ Hrows _].
    destruct (Hrows w g Hin) as [Hne Hg].
    assert (Hd : dates g <> []) by (destruct g; [congruence|discriminate]).
    destruct (least_spec Py.date_leb date_leb_total date_leb_trans (dates g) Hd)
      as [first [Hf [Hfin Hfall]]].
    destruct (greatest_spec Py.date_leb date_leb_total date_leb_trans (dates g) Hd)
      as [last [Hl [Hlin _]]].
    unfold dates in Hfin, Hlin. apply in_map_iff in Hfin, Hlin.
    destruct Hfin as [x [Ex Hx]], Hlin as [y [Ey Hy]].
    assert (Hxf : In x (filtered sd ed db)).
    { rewrite Hg in Hx. apply filter_In in Hx. tauto. }
    assert (Hyf : In y (filtered sd ed db)).
    { rewrite Hg in Hy. apply filter_In in Hy. tauto. }
    subst first last.
    exists x, y. split; [assumption|]. split; [assumption|].
    simpl. rewrite Hf, Hl. split; [reflexivity|]. split; [reflexivity|].
    split.
    + rewrite Forall_forall in Hfall. unfold Py.date_le.
      apply Hfall. now apply in_map.
    + split; [apply (filtered_in_range sd ed db x Hxf) |
              apply (filtered_in_range sd ed db y Hyf)].
Qed.

Lemma by_date_rows_in_range_witness :
  exists daily,
    get_stats_by_date (Some (Py.mkdate 2024 1 2)) None (Some "daily"%string)
      scenario_categories = Ok (map inl daily) /\
    forall r, In r daily ->
      exists x, DailyStats.date r = Py.isoformat (Expense.date x) /\
                Py.date_le (Py.mkdate 2024 1 2) (Expense.date x).
Proof.
  destruct (by_date_rows_in_range (Some (Py.mkdate 2024 1 2)) None scenario_categories)
    as [daily [weekly [Hd [_ [H _]]]]].
  exists daily. split; [exact Hd|].
  intros r Hr. destruct (H r Hr) as [x [_ [E [Hs _]]]].
  exists x. split; [exact E|]. apply Hs. reflexivity.
Defined.

(** * Properties of the endpoints in the arithmetic of the database *)

(** ** The arithmetic on known numbers *)

Example double_literals :
  map (fun q => Qred (Double.to_Q (dbl q))) [20.005; 2.67; 0.04; 30.0]%Q
  = [5630906909096673 # 281474976710656; 1503076375634903 # 562949953421312;
     5764607523034235 # 144115188075855872; 30 # 1]%Q.
Proof. vm_compute. reflexivity. Qed.

Example double_sums_and_rounds :
  Double.round2 (total_in Num.double [dbl 10.00; dbl 20.005]) = dbl 30.0 /\
  Double.round2 (average_in Num.double [dbl 2.67; dbl 2.68]) = dbl 2.67 /\
  Double.round2 (average_in Num.double [dbl 1.15; dbl 1.16]) = dbl 1.15 /\
  Double.round2 (average_in Num.double [dbl 0.045; dbl 0.045; dbl 0.045]) = dbl 0.05 /\
  Double.round2 (dbl 0.045) = dbl 0.04 /\
  Double.round2 (total_in Num.double [dbl 0.005; dbl 0.01]) = dbl 0.01 /\
  Double.round2 (total_in Num.double [dbl 10000000000000000; dbl 1.00])
  = dbl 10000000000000000 /\
  Double.round2 (dbl 2.675) = dbl 2.67.
Proof. vm_compute. repeat split. Qed.

Example double_nan_sum :
  sum_in Num.double [S754_infinity false; S754_infinity true] = None /\
  sum_in Num.double [dbl 1; S754_infinity false] = Some (S754_infinity false).
Proof. vm_compute. split; reflexivity. Qed.

(** ** The order of doubles *)

Lemma double_leb_rank (a b : Double.t) :
  Double.leb a b = true <-> lex_le (rank a) (rank b).
Proof.
  unfold Double.leb.
  destruct a as [sa|sa| |sa ma ea], b as [sb|sb| |sb mb eb]; simpl;
    try destruct sa; try destruct sb; simpl; try (split; [intros _; lia | reflexivity]);
    try (split; [discriminate | lia]).
  - destruct (Z.compare_spec ea eb); simpl.
    + change (Pos.compare_cont Eq ma mb) with (Pos.compare ma mb).
      destruct (Pos.compare_spec ma mb); simpl; split; try discriminate; try reflexivity; lia.
    + split; [discriminate | lia].
    + split; [intros _; lia | reflexivity].
  - destruct (Z.compare_spec ea eb); simpl.
    + change (Pos.compare_cont Eq ma mb) with (Pos.compare ma mb).
      destruct (Pos.compare_spec ma mb); simpl; split; try discriminate; try reflexivity; lia.
    + split; [intros _; lia | reflexivity].
    + split; [discriminate | lia].
Qed.

Lemma double_leb_trans (a b c : Double.t) :
  Double.leb a b = true -> Double.leb b c = true -> Double.leb a c = true.
Proof.
  rewrite !double_leb_rank. unfold lex_le.
  destruct (rank a) as [[a1 a2] a3], (rank b) as [[b1 b2] b3], (rank c) as [[c1 c2] c3].
  lia.
Qed.

Lemma double_leb_total (a b : Double.t) :
  Double.leb a b = true \/ Double.leb b a = true.
Proof.
  rewrite !double_leb_rank. unfold lex_le.
  destruct (rank a) as [[a1 a2] a3], (rank b) as [[b1 b2] b3]. lia.
Qed.

(** ** Loops that may meet a NULL *)

Lemma for_each_map_cases {X A B : Type} (h : X -> A) (f : A -> Result B)
    (bad : X -> bool) (g : X -> B) (code : Z) (detail : string) (l : list X) :
  (forall x, In x l ->
     f (h x) = if bad x then HTTPException code detail else Ok (g x)) ->
  for_each f (map h l)
  = if existsb bad l then HTTPException code detail else Ok (map g l).
Proof.
  induction l as [|x t IH]; intros H; [reflexivity|].
  cbn [map for_each existsb]. rewrite (H x) by now left.
  destruct (bad x); [reflexivity|]. cbn [bind orb].
  rewrite IH by (intros; apply H; now right).
  now destruct (existsb bad t).
Qed.

Section InArithFacts.
Variable A : Num.arith.

Lemma stored_nonempty g : g <> [] -> stored A g <> [].
Proof. destruct g; [congruence|discriminate]. Qed.

Lemma sum_in_stored g :
  g <> [] -> sum_in A (stored A g) = nullable A (total_in A (stored A g)).
Proof. destruct g; [congruence|reflexivity]. Qed.

Lemma avg_in_stored g :
  g <> [] -> avg_in A (stored A g) = nullable A (average_in A (stored A g)).
Proof. destruct g; [congruence|reflexivity]. Qed.

Lemma count_stored g : Sql.count (stored A g) = Sql.count g.
Proof. unfold Sql.count, stored. now rewrite length_map. Qed.

Lemma category_groups_in_perm rows :
  Permutation (category_groups_in A rows)
    (Sql.group_by Expense.category String.eqb rows).
Proof. apply order_by_desc_perm. Qed.

Lemma category_groups_in_grouped rows :
  grouped Expense.category String.eqb (category_groups_in A rows) rows.
Proof.
  pose proof (group_by_grouped Expense.category String.eqb String.eqb_eq rows)
    as [Hnd Hrows Hall].
  pose proof (category_groups_in_perm rows) as P.
  split.
  - apply Permutation_NoDup with (map fst (Sql.group_by Expense.category String.eqb rows));
      [|assumption].
    symmetry. now apply Permutation_map.
  - intros k g Hin. apply Hrows. now apply (Permutation_in _ P).
  - intros r Hr.
    apply Permutation_in with (map fst (Sql.group_by Expense.category String.eqb rows)).
    + symmetry. now apply Permutation_map.
    + now apply Hall.
Qed.

Hypothesis leb_total : forall a b, Num.leb A a b = true \/ Num.leb A b a = true.
Hypothesis leb_trans :
  forall a b c, Num.leb A a b = true -> Num.leb A b c = true -> Num.leb A a c = true.



End InArithFacts.

Section InArithResults.
Variable A : Num.arith.

Lemma get_stats_by_category_in_cases sd ed db :
  get_stats_by_category_in A sd ed db
  = if existsb (fun cg => null_row_in A (snd cg)) (category_groups_in A (filtered sd ed db))
    then HTTPException 500 round_none
    else Ok (map (category_row_in A) (category_groups_in A (filtered sd ed db))).
Proof.
  unfold get_stats_by_category_in. fold (filtered sd ed db).
  fold (category_groups_in A (filtered sd ed db)).
  apply for_each_map_cases. intros [c g] Hin.
  destruct (category_groups_in_grouped A (filtered sd ed db)) as [_ Hrows _].
  destruct (Hrows c g Hin) as [Hne _].
  cbn [snd]. rewrite sum_in_stored, avg_in_stored by assumption.
  unfold null_row_in, nullable, category_row_in. cbn [fst snd].
  destruct (Num.is_null A (total_in A (stored A g))); [reflexivity|].
  destruct (Num.is_null A (average_in A (stored A g))); reflexivity.
Qed.

Lemma get_stats_by_month_in_cases db :
  get_stats_by_month_in A db
  = if existsb (fun mg => null_row_in A (snd mg)) (keyed_groups month_key db)
    then HTTPException 500 round_none
    else Ok (map (monthly_row_in A) (keyed_groups month_key db)).
Proof.
  unfold get_stats_by_month_in. fold (keyed_groups month_key db).
  apply for_each_map_cases. intros [m g] Hin.
  apply keyed_groups_nonempty in Hin. cbn [snd].
  rewrite sum_in_stored, avg_in_stored by assumption.
  unfold null_row_in, nullable, monthly_row_in. cbn [fst snd].
  destruct (Num.is_null A (total_in A (stored A g))); [reflexivity|].
  destruct (Num.is_null A (average_in A (stored A g))); reflexivity.
Qed.

Lemma by_date_daily_in_cases rows :
  by_date_daily_in A rows
  = if existsb (fun dg => null_total_in A (snd dg)) (daily_groups rows)
    then HTTPException 500 round_none
    else Ok (map (daily_row_in A) (daily_groups rows)).
Proof.
  unfold by_date_daily_in. fold (daily_groups rows).
  apply for_each_map_cases. intros [dt g] Hin.
  destruct (daily_groups_grouped rows) as [_ Hrows _].
  destruct (Hrows dt g Hin) as [Hne _]. cbn [snd].
  rewrite sum_in_stored by assumption.
  unfold null_total_in, nullable, daily_row_in. cbn [fst snd].
  destruct (Num.is_null A (total_in A (stored A g))); reflexivity.
Qed.
End InArithResults.

Lemma singleton_of_same {K V : Type} (l : list (K * V)) (a : K * V) :
  l <> [] -> NoDup (map fst l) -> (forall p, In p l -> p = a) -> l = [a].
Proof.
  intros Hne Hnd Hall. destruct l as [|p [|q t]]; [congruence| |].
  - now rewrite (Hall p (or_introl eq_refl)).
  - exfalso. rewrite (Hall p), (Hall q) in Hnd by (simpl; auto).
    inversion Hnd as [|? ? Hnotin _]. apply Hnotin. now left.
Qed.

(** * The claims on amounts and averages *)





(** * Further properties on amounts *)

Lemma get_stats_total_in_cases (A : Num.arith) sd ed db :
  get_stats_total_in A sd ed db
  = match stored A (filtered sd ed db) with
    | [] =>
        Ok (Stats.mk_overall (Num.of_count A 0) 0 (Num.of_count A 0)
              (Num.of_count A 0) (Num.of_count A 0))
    | x :: t =>
        if Num.is_null A (total_in A (x :: t)) then
          Ok (Stats.mk_overall (Num.of_count A 0) 0 (Num.of_count A 0)
                (Num.of_count A 0) (Num.of_count A 0))
        else if Num.is_null A (average_in A (x :: t)) then
          HTTPException 500 round_none
        else
          Ok (Stats.mk_overall
                (Num.round2 A (total_in A (x :: t)))
                (Sql.count (filtered sd ed db))
                (Num.round2 A (average_in A (x :: t)))
                (Num.round2 A
                   (fold_left (fun m y => if Num.leb A m y then m else y) t x))
                (Num.round2 A
                   (fold_left (fun m y => if Num.leb A y m then m else y) t x)))
    end.
Proof.
  unfold get_stats_total_in. fold (filtered sd ed db).
  destruct (stored A (filtered sd ed db)) as [|x t]; [reflexivity|].
  unfold sum_in, avg_in, nullable.
  destruct (Num.is_null A (total_in A (x :: t))); [reflexivity|].
  destruct (Num.is_null A (average_in A (x :: t))); reflexivity.
Qed.

(** X1. The overall summary on the doubles that the database holds. When
    no expense passes the filter, or when their sum is not a number, it
    returns the record of zeros. Otherwise, the average being a number, it
    returns the rounded sum of the amounts, added up one after the other,
    their number, the rounded quotient of the two, and the rounded least
    and greatest amount, which are amounts of the filtered table. *)
Theorem overall_summary_of_doubles sd ed db :
  let xs := stored Num.double (filtered sd ed db) in
  let total := fold_left Double.add xs Double.zero in
  let count := Z.of_nat (List.length (filtered sd ed db)) in
  (xs = [] \/ Double.is_nan total = true ->
   get_stats_total_in Num.double sd ed db
   = Ok (Stats.mk_overall Double.zero 0 Double.zero Double.zero Double.zero)) /\
  (xs <> [] -> Double.is_nan total = false ->
   Double.is_nan (Double.div total (Double.of_Z count)) = false ->
   exists lo hi,
     In lo xs /\ In hi xs /\
     Forall (fun a => Double.leb lo a = true /\ Double.leb a hi = true) xs /\
     get_stats_total_in Num.double sd ed db
     = Ok (Stats.mk_overall (Double.round2 total) count
             (Double.round2 (Double.div total (Double.of_Z count)))
             (Double.round2 lo) (Double.round2 hi))).
Proof.
  cbv zeta. rewrite get_stats_total_in_cases.
  change (Z.of_nat (List.length (filtered sd ed db)))
    with (Sql.count (filtered sd ed db)).
  rewrite <- (count_stored Num.double (filtered sd ed db)).
  generalize (stored Num.double (filtered sd ed db)). intros xs.
  unfold average_in, total_in.
  cbn [Num.add Num.zero Num.div Num.of_count Num.is_null Num.double
       Num.round2 Num.leb Num.num].
  change (Num.num Num.double) with Double.t in *.
  split.
  - intros [E|E].
    + rewrite E. reflexivity.
    + destruct xs as [|x t]; [reflexivity|]. rewrite E. reflexivity.
  - intros Hne Ht Ha. destruct xs as [|x t]; [congruence|].
    rewrite Ht, Ha.
    destruct (least_spec Double.leb double_leb_total double_leb_trans (x :: t))
      as [lo [El [Hlin Hlo]]]; [discriminate|].
    destruct (greatest_spec Double.leb double_leb_total double_leb_trans (x :: t))
      as [hi [Eh [Hhin Hhi]]]; [discriminate|].
    exists lo, hi. split; [assumption|]. split; [assumption|].
    split.
    + rewrite Forall_forall in *. intros a Hin.
      split; [now apply Hlo | now apply Hhi].
    + injection El as <-. injection Eh as <-. reflexivity.
Qed.

Lemma overall_summary_of_doubles_witness :
  get_stats_total_in Num.double None None
    [ Expense.mk 1 0.045 "a" (Py.mkdate 2024 1 1);
      Expense.mk 2 0.045 "b" (Py.mkdate 2024 1 1);
      Expense.mk 3 0.045 "c" (Py.mkdate 2024 1 2) ]
  = Ok (Stats.mk_overall (dbl 0.14) 3 (dbl 0.05) (dbl 0.04) (dbl 0.04)).
Proof.
  set (db := [ Expense.mk 1 0.045 "a" (Py.mkdate 2024 1 1);
               Expense.mk 2 0.045 "b" (Py.mkdate 2024 1 1);
               Expense.mk 3 0.045 "c" (Py.mkdate 2024 1 2) ]).
  destruct (proj2 (overall_summary_of_doubles None None db))
    as [lo [hi [Hlo [Hhi [_ Hres]]]]];
    [discriminate | reflexivity | reflexivity |].
  assert (El : lo = dbl 0.045).
  { simpl in Hlo. destruct Hlo as [H|[H|[H|[]]]]; now rewrite <- H. }
  assert (Eh : hi = dbl 0.045).
  { simpl in Hhi. destruct Hhi as [H|[H|[H|[]]]]; now rewrite <- H. }
  rewrite Hres, El, Eh. vm_compute. reflexivity.
Defined.

(** X3. The daily breakdown, on the doubles that the database holds, is
    made of one group per date found in the filtered table, a group
    holding the expenses of that date; a group's row has the date as
    YYYY-MM-DD text, the rounded total of the amounts of the group, added
    up one after the other, and the size of the group; and the rows come
    latest date first. (Should a total not be a number, which takes
    infinite amounts, the answer is the 500 response.) *)
Theorem daily_breakdown_of_doubles sd ed db :
  exists groups : list (Py.date * list Expense.t),
    NoDup (map fst groups) /\
    (forall x, In x (filtered sd ed db) -> In (Expense.date x) (map fst groups)) /\
    (forall dt g, In (dt, g) groups ->
       g <> [] /\
       g = filter (fun x => Py.date_eqb (Expense.date x) dt) (filtered sd ed db)) /\
    StronglySorted (fun a b => Py.date_lt (fst b) (fst a)) groups /\
    get_stats_by_date_in Num.double sd ed (Some "daily"%string) db
    = if existsb (fun dg => null_total_in Num.double (snd dg)) groups
      then HTTPException 500 round_none
      else Ok (map (fun dg =>
                      inl (Stats.mk_daily (Py.isoformat (fst dg))
                             (Double.round2
                                (fold_left Double.add (stored Num.double (snd dg))
                                   Double.zero))
                             (Z.of_nat (List.length (snd dg)))))
                 groups).
Proof.
  exists (daily_groups (filtered sd ed db)).
  destruct (daily_groups_grouped (filtered sd ed db)) as [Hnd Hrows Hall].
  split; [assumption|]. split; [assumption|]. split; [exact Hrows|].
  split; [apply daily_groups_sorted|].
  unfold get_stats_by_date_in. cbn [String.eqb Ascii.eqb Bool.eqb].
  fold (filtered sd ed db). rewrite by_date_daily_in_cases.
  destruct (existsb _ _); [reflexivity|]. cbn [bind]. rewrite map_map. f_equal.
Qed.

Lemma daily_breakdown_of_doubles_witness :
  get_stats_by_date_in Num.double None None (Some "daily"%string)
    [ Expense.mk 1 0.005 "a" (Py.mkdate 2024 1 1);
      Expense.mk 2 0.01 "b" (Py.mkdate 2024 1 1) ]
  = Ok [ inl (Stats.mk_daily "2024-01-01" (dbl 0.01) 2) ].
Proof.
  set (db := [ Expense.mk 1 0.005 "a" (Py.mkdate 2024 1 1);
               Expense.mk 2 0.01 "b" (Py.mkdate 2024 1 1) ]).
  destruct (daily_breakdown_of_doubles None None db)
    as [groups [Hnd [Hall [Hrows [_ Hres]]]]].
  assert (E : groups = [(Py.mkdate 2024 1 1, db)]).
  { apply singleton_of_same; [|assumption|].
    - pose proof (Hall (Expense.mk 1 0.005 "a" (Py.mkdate 2024 1 1))
                    (or_introl eq_refl)) as H.
      intros ->. destruct H.
    - intros [dt g] Hin. destruct (Hrows dt g Hin) as [Hne Hg].
      change (filtered None None db) with db in Hg. unfold db in Hg.
      cbn [filter Expense.date] in Hg.
      destruct (Py.date_eqb (Py.mkdate 2024 1 1) dt) eqn:Ed; [|congruence].
      apply date_eqb_eq in Ed. subst dt. now rewrite Hg. }
  rewrite Hres, E. vm_compute. reflexivity.
Defined.

(** ** The two arithmetics

    With exact decimal arithmetic as the parameter the endpoints of this
    part are those of the first part: the same groups in the same order,
    and rows with the same fields. *)

Lemma existsb_never {X : Type} (l : list X) : existsb (fun _ => false) l = false.
Proof. induction l; simpl; auto. Qed.

Lemma category_in_decimal sd ed db :
  get_stats_by_category sd ed db
  = Ok (map category_row (category_groups (filtered sd ed db))) /\
  get_stats_by_category_in Num.decimal sd ed db
  = Ok (map (category_row_in Num.decimal) (category_groups (filtered sd ed db))) /\
  forall cg,
    Stats.category_name (category_row_in Num.decimal cg)
    = CategoryStats.category (category_row cg) /\
    Stats.category_total (category_row_in Num.decimal cg)
    = CategoryStats.total (category_row cg) /\
    Stats.category_count (category_row_in Num.decimal cg)
    = CategoryStats.count (category_row cg) /\
    Stats.category_average (category_row_in Num.decimal cg)
    = CategoryStats.average (category_row cg).
Proof.
  split; [apply get_stats_by_category_ok|]. split.
  - rewrite get_stats_by_category_in_cases.
    change (existsb (fun cg => null_row_in Num.decimal (snd cg))
              (category_groups_in Num.decimal (filtered sd ed db)))
      with (existsb (fun _ : string * list Expense.t => false)
              (category_groups_in Num.decimal (filtered sd ed db))).
    rewrite existsb_never. reflexivity.
  - intros [c g]. unfold category_row_in, category_row, average_in. cbn [fst snd].
    rewrite count_stored. repeat split.
Qed.

Lemma monthly_in_decimal db :
  get_stats_by_month db = Ok (map monthly_row (keyed_groups month_key db)) /\
  get_stats_by_month_in Num.decimal db
  = Ok (map (monthly_row_in Num.decimal) (keyed_groups month_key db)) /\
  forall mg,
    Stats.monthly_month (monthly_row_in Num.decimal mg)
    = MonthlyStats.month (monthly_row mg) /\
    Stats.monthly_total (monthly_row_in Num.decimal mg)
    = MonthlyStats.total (monthly_row mg) /\
    Stats.monthly_count (monthly_row_in Num.decimal mg)
    = MonthlyStats.count (monthly_row mg) /\
    Stats.monthly_average (monthly_row_in Num.decimal mg)
    = MonthlyStats.average (monthly_row mg).
Proof.
  split; [apply get_stats_by_month_ok|]. split.
  - rewrite get_stats_by_month_in_cases.
    change (existsb (fun mg => null_row_in Num.decimal (snd mg))
              (keyed_groups month_key db))
      with (existsb (fun _ : string * list Expense.t => false)
              (keyed_groups month_key db)).
    rewrite existsb_never. reflexivity.
  - intros [m g]. unfold monthly_row_in, monthly_row, average_in. cbn [fst snd].
    rewrite count_stored. repeat split.
Qed.

(** The examples of rounding in which the two arithmetics part. *)
Example averages_of_doubles_and_decimals :
  Num.round2 Num.double (average_in Num.double (map (Num.store Num.double) [2.67; 2.68]%Q))
  = dbl 2.67 /\
  Num.round2 Num.decimal (average_in Num.decimal (map (Num.store Num.decimal) [2.67; 2.68]%Q))
  = 2.68%Q.
Proof. vm_compute. split; reflexivity. Qed.

(** The category scenario of the specification on doubles: the sum of
    10.00 and 20.005 is the double just below 30.005 and is rounded to
    30.0, the average to 15.0. *)
Example scenario_categories_in_doubles :
  get_stats_by_category_in Num.double None None scenario_categories
  = Ok [ Stats.mk_category "food" (dbl 30.00) 2 (dbl 15.00);
         Stats.mk_category "transport" (dbl 5.00) 1 (dbl 5.00) ].
Proof. vm_compute. reflexivity. Qed.
